(** * ML Workshop backend (ML_model/backend/app.py)

    A shallow embedding of the Flask service: the process-wide globals
    [model_metadata] and [ml_model], the [MLModel] class, the start-up
    routine [initialize_app] and the request handlers.

    The service talks to the outside world through libraries (pandas, json,
    numpy.random, the file system, the clock, scikit-learn).  What these
    return is not decided by the service, so it is supplied by an
    environment record [Env]; what the service does with the answers is
    modelled step by step in a state-and-exception monad over [Sys]. *)

From Stdlib Require Import Ascii String QArith Lqa.
From stdpp Require Import gmap strings list fin_maps pretty.

Local Open Scope string_scope.

(** ** Python strings *)

Module PyStr.

(** [str.lower] on the ASCII range; other characters are left alone. *)
Definition lower_ascii (c : Ascii.ascii) : Ascii.ascii :=
  let n := Ascii.nat_of_ascii c in
  if (65 <=? n)%nat && (n <=? 90)%nat then Ascii.ascii_of_nat (n + 32) else c.

Fixpoint lower (s : string) : string :=
  match s with
  | EmptyString => EmptyString
  | String c r => String (lower_ascii c) (lower r)
  end.

(** [s.endswith(suffix)] *)
Definition endswith (s suffix : string) : bool :=
  let n := String.length s in
  let m := String.length suffix in
  if (m <=? n)%nat then String.eqb (String.substring (n - m) m s) suffix else false.

(** [s.startswith(prefix)] *)
Definition startswith (s pre : string) : bool := String.prefix pre s.

(** [str(n)] for a non-negative integer. *)
Definition of_nat (n : nat) : string := pretty n.

(** Zero-padded decimal field of [strftime] and [isoformat]. *)
Fixpoint zeros (k : nat) : string :=
  match k with
  | O => EmptyString
  | S k' => "0" +:+ zeros k'
  end.

Definition zfill (width n : nat) : string :=
  let d := of_nat n in
  zeros (width - String.length d) +:+ d.

End PyStr.

(** ** datetime *)

Record datetime := {
  year : nat; month : nat; day : nat;
  hour : nat; minute : nat; second : nat;
  microsecond : nat
}.

Module Datetime.
Import PyStr.

(** [dt.strftime('%Y%m%d_%H%M%S')] *)
Definition strftime_compact (dt : datetime) : string :=
  zfill 4 (year dt) +:+ zfill 2 (month dt) +:+ zfill 2 (day dt) +:+ "_" +:+
  zfill 2 (hour dt) +:+ zfill 2 (minute dt) +:+ zfill 2 (second dt).

(** [dt.isoformat()]: the fraction is printed only when it is not zero. *)
Definition isoformat (dt : datetime) : string :=
  zfill 4 (year dt) +:+ "-" +:+ zfill 2 (month dt) +:+ "-" +:+ zfill 2 (day dt) +:+ "T" +:+
  zfill 2 (hour dt) +:+ ":" +:+ zfill 2 (minute dt) +:+ ":" +:+ zfill 2 (second dt) +:+
  (if (microsecond dt =? 0)%nat then "" else "." +:+ zfill 6 (microsecond dt)).

End Datetime.

(** ** JSON values (what [jsonify], [json.dump] and [json.load] exchange) *)

#[warnings="-register-all"] Inductive json :=
| JNull
| JBool (b : bool)
| JInt (z : Z)
| JFloat (q : Q)
| JStr (s : string)
| JArr (items : list json)
| JObj (fields : list (string * json)).

(** Field access on an object, first match. *)
Fixpoint assoc (k : string) (kvs : list (string * json)) : option json :=
  match kvs with
  | [] => None
  | (k', v) :: r => if String.eqb k k' then Some v else assoc k r
  end.

Definition jfield (k : string) (j : json) : option json :=
  match j with
  | JObj kvs => assoc k kvs
  | _ => None
  end.

(** ** Exceptions *)

Record exn := Exn { exn_class : string; exn_msg : string }.

(** [str(e)] *)
Definition str_exn (e : exn) : string := exn_msg e.

Inductive result (A : Type) :=
| Ok (a : A)
| Raise (e : exn).
Arguments Ok {A} a.
Arguments Raise {A} e.

(** ** Data exchanged with the libraries *)

(** A [pandas.DataFrame] as far as the service looks at it: its column labels
    and its rows. *)
Record DataFrame := {
  df_columns : list string;
  df_rows : list (list string)
}.

(** [df.shape] *)
Definition shape (df : DataFrame) : nat * nat :=
  (length (df_rows df), length (df_columns df)).

(** [df.empty]: true when any axis has length 0. *)
Definition df_empty (df : DataFrame) : bool :=
  (fst (shape df) =? 0)%nat || (snd (shape df) =? 0)%nat.

(** [len(df)] *)
Definition df_len (df : DataFrame) : nat := length (df_rows df).

(** A fitted scikit-learn estimator, identified by how it was built. *)
Record classifier := {
  n_estimators : nat;
  random_state : nat;
  fit_samples : nat;
  fit_features : nat;
  fit_random_state : nat
}.

(** A file on disk. *)
Record file := { content : string; mtime : datetime }.

(** A [werkzeug] [FileStorage] entry of [request.files]. *)
Record FileStorage := { filename : string; stream : string }.

Record Request := { files : gmap string FileStorage }.

(** A Flask response: the JSON body and the status code. *)
Record Response := { body : json; status : nat }.

(** [jsonify(obj)] and [jsonify(obj), code] *)
Definition jsonify (obj : json) : Response := {| body := obj; status := 200 |}.
Definition jsonify_code (obj : json) (code : nat) : Response :=
  {| body := obj; status := code |}.

(** ** The environment: answers of the outside world

    - [now]: what [datetime.now()] returns;
    - [draws]: the raw output of numpy's global generator, one number per
      variate;
    - [write_fault]: the [OSError] that writing a file at a path raises, if
      any;
    - [fault_after]: for a write that fails, how far it got: [None] when the
      file could not be opened, so that nothing is touched; [Some n] when it
      was opened, and by that emptied, and the failure came after [n]
      characters were written;
    - [mtime_fault]: the exception that
      [datetime.fromtimestamp(os.path.getmtime(path))] raises, if any (a file
      time that cannot be converted);
    - [sklearn_fault]: the exception that importing or fitting the
      scikit-learn model raises, if any;
    - [csv_parser]: [pandas.read_csv] on the text of a file;
    - [json_parser], [json_printer]: [json.load] and [json.dump]. *)
Record Env := {
  now : datetime;
  draws : nat -> N;
  write_fault : string -> option exn;
  fault_after : string -> option nat;
  mtime_fault : string -> option exn;
  sklearn_fault : option exn;
  csv_parser : string -> result DataFrame;
  json_parser : string -> result json;
  json_printer : json -> string
}.

(** ** The state of the process and of its surroundings *)

(** [class MLModel]: the instance attributes set by [__init__]. *)
Record MLModel := {
  is_trained : bool;
  model : option classifier
}.

(** Observable file operations, oldest first. *)
Inductive io_event :=
| EvSave (path : string)
| EvReadCsv (path : string)
| EvWriteMetadata (path : string).

Record Sys := {
  model_metadata : gmap string json;   (* the global dict *)
  ml_model : MLModel;                  (* the global MLModel instance *)
  fs : gmap string file;               (* the disk *)
  rng_pos : nat;                       (* numbers drawn so far *)
  io_log : list io_event;
  stdout : list string                 (* printed lines, oldest first *)
}.

Definition set_model_metadata (d : gmap string json) (s : Sys) : Sys :=
  {| model_metadata := d; ml_model := ml_model s; fs := fs s;
     rng_pos := rng_pos s; io_log := io_log s; stdout := stdout s |}.

Definition set_ml_model (m : MLModel) (s : Sys) : Sys :=
  {| model_metadata := model_metadata s; ml_model := m; fs := fs s;
     rng_pos := rng_pos s; io_log := io_log s; stdout := stdout s |}.

Definition set_fs (d : gmap string file) (s : Sys) : Sys :=
  {| model_metadata := model_metadata s; ml_model := ml_model s; fs := d;
     rng_pos := rng_pos s; io_log := io_log s; stdout := stdout s |}.

Definition set_rng_pos (n : nat) (s : Sys) : Sys :=
  {| model_metadata := model_metadata s; ml_model := ml_model s; fs := fs s;
     rng_pos := n; io_log := io_log s; stdout := stdout s |}.

Definition add_event (e : io_event) (s : Sys) : Sys :=
  {| model_metadata := model_metadata s; ml_model := ml_model s; fs := fs s;
     rng_pos := rng_pos s; io_log := io_log s ++ [e]; stdout := stdout s |}.

Definition add_stdout (line : string) (s : Sys) : Sys :=
  {| model_metadata := model_metadata s; ml_model := ml_model s; fs := fs s;
     rng_pos := rng_pos s; io_log := io_log s; stdout := stdout s ++ [line] |}.

(** ** The monad of the service: state plus Python exceptions *)

Definition M (A : Type) : Type := Sys -> result A * Sys.

Definition ret {A} (a : A) : M A := fun s => (Ok a, s).

Definition bind {A B} (m : M A) (k : A -> M B) : M B :=
  fun s =>
    match m s with
    | (Ok a, s') => k a s'
    | (Raise e, s') => (Raise e, s')
    end.

Definition raise {A} (e : exn) : M A := fun s => (Raise e, s).

(** [try: body  except Exception as e: handler e] *)
Definition try_except {A} (body : M A) (handler : exn -> M A) : M A :=
  fun s =>
    match body s with
    | (Ok a, s') => (Ok a, s')
    | (Raise e, s') => handler e s'
    end.

Definition get : M Sys := fun s => (Ok s, s).
Definition modify (f : Sys -> Sys) : M unit := fun s => (Ok tt, f s).
Definition lift_result {A} (r : result A) : M A := fun s => (r, s).

#[global] Instance M_ret : MRet M := @ret.
#[global] Instance M_bind : MBind M := fun A B k m => bind m k.

(** [print(line)] *)
Definition print (line : string) : M unit := modify (add_stdout line).

(** [d[k]]: a missing key raises [KeyError], whose [str] is the quoted key. *)
Definition getitem (d : gmap string json) (k : string) : M json :=
  match d !! k with
  | Some v => ret v
  | None => raise (Exn "KeyError" ("'" +:+ k +:+ "'"))
  end.

(** ** numpy.random, driven by the raw draws of the environment *)

Module Numpy.

(** One uniform variate of [[0, 1)] with 53 random bits, as numpy builds
    its doubles. *)
Definition random_sample (raw : N) : Q :=
  Z.of_N (raw mod 9007199254740992) # 9007199254740992.

(** [low + (high - low) * random_sample()] *)
Definition uniform1 (low high : Q) (raw : N) : Q :=
  low + (high - low) * random_sample raw.

(** A uniformly chosen element of a non-empty [a]. *)
Definition choice1 (a : list string) (raw : N) : string :=
  nth (N.to_nat (raw mod N.of_nat (length a))) a "".

Section WithEnv.
Context (env : Env).

(** The next [size] raw numbers; the generator moves on by [size]. *)
Definition take_draws (size : nat) : M (list N) :=
  s ← get;
  modify (set_rng_pos (rng_pos s + size));;
  mret (map (fun i => draws env (rng_pos s + i)) (seq 0 size)).

(** [np.random.choice(a, size)] *)
Definition choice (a : list string) (size : nat) : M (list string) :=
  match a with
  | [] => raise (Exn "ValueError" "'a' cannot be empty unless no samples are taken")
  | _ => raws ← take_draws size; mret (map (choice1 a) raws)
  end.

(** [np.random.uniform(low, high, size)] *)
Definition uniform (low high : Q) (size : nat) : M (list Q) :=
  raws ← take_draws size; mret (map (uniform1 low high) raws).
End WithEnv.

End Numpy.

(** ** Module-level constants and globals *)

Definition UPLOAD_FOLDER : string := "uploads".
Definition MODEL_FOLDER : string := "trained_model".

(** [os.path.join(a, b)] for a relative [b]. *)
Definition path_join (a b : string) : string := a +:+ "/" +:+ b.

(** The initial value of the global [model_metadata]. *)
Definition model_metadata_init : gmap string json :=
  <["status" := JStr "No model loaded"]>
  (<["features" := JArr []]>
  (<["last_trained" := JNull]>
  (<["accuracy" := JNull]>
  (<["model_type" := JStr "Not loaded"]> ∅)))).

(** [MLModel.__init__] *)
Definition MLModel_init : MLModel := {| is_trained := false; model := None |}.

(** The labels the stub predictor chooses from. *)
Definition stub_labels : list string := ["Class A"; "Class B"; "Class C"].

(** [d.update(pairs)]: later pairs win. *)
Definition dict_update (d : gmap string json) (kvs : list (string * json))
  : gmap string json :=
  foldl (fun acc kv => <[kv.1 := kv.2]> acc) d kvs.

(** *** [d.update(doc)] for whatever [json.load] returned

    A JSON object is a dict and is merged.  Anything else is iterated, and
    every element has to be a sequence of two things, a key and a value,
    which are stored one after the other until an element is not such a
    pair.  The model keeps the string-keyed part of the dict: a pair whose
    key is a number, a boolean or null is stored by Python under that key,
    which no lookup of this program reads; here it is passed over and the
    merge goes on. *)

(** The type name Python prints for a value. *)
Definition py_type_name (j : json) : string :=
  match j with
  | JNull => "NoneType"
  | JBool _ => "bool"
  | JInt _ => "int"
  | JFloat _ => "float"
  | JStr _ => "str"
  | JArr _ => "list"
  | JObj _ => "dict"
  end.

(** The keys of a parsed object in the order of the Python dict: every key
    where it occurs first. *)
Fixpoint object_keys (seen : list string) (kvs : list (string * json)) : list string :=
  match kvs with
  | [] => []
  | (k, _) :: rest =>
      if bool_decide (k ∈ seen) then object_keys seen rest
      else k :: object_keys (k :: seen) rest
  end.

(** The characters of a string, each as a string of its own. *)
Fixpoint string_items (s : string) : list json :=
  match s with
  | EmptyString => []
  | String c rest => JStr (String c EmptyString) :: string_items rest
  end.

(** What iterating a value yields; [None] for a value that is not
    iterable. *)
Definition as_sequence (j : json) : option (list json) :=
  match j with
  | JArr items => Some items
  | JStr s => Some (string_items s)
  | JObj kvs => Some (JStr <$> object_keys [] kvs)
  | _ => None
  end.

(** Element number [i] of an update sequence: a pair to store under a string
    key, a pair under another hashable key, or the exception it causes. *)
Inductive update_item :=
| ItemSet (k : string) (v : json)
| ItemOther
| ItemBad (e : exn).

Definition update_item_of (i : nat) (item : json) : update_item :=
  match as_sequence item with
  | None =>
      ItemBad (Exn "TypeError"
                 ("cannot convert dictionary update sequence element #"
                  +:+ PyStr.of_nat i +:+ " to a sequence"))
  | Some [k; v] =>
      match k with
      | JStr key => ItemSet key v
      | JArr _ | JObj _ =>
          ItemBad (Exn "TypeError" ("unhashable type: '" +:+ py_type_name k +:+ "'"))
      | _ => ItemOther
      end
  | Some parts =>
      ItemBad (Exn "ValueError"
                 ("dictionary update sequence element #" +:+ PyStr.of_nat i
                  +:+ " has length " +:+ PyStr.of_nat (length parts)
                  +:+ "; 2 is required"))
  end.

(** The pairs are stored from the left; the first bad element stops the
    update and what was stored before it stays. *)
Fixpoint update_items (d : gmap string json) (i : nat) (items : list json)
  : gmap string json * option exn :=
  match items with
  | [] => (d, None)
  | item :: rest =>
      match update_item_of i item with
      | ItemSet k v => update_items (<[k := v]> d) (S i) rest
      | ItemOther => update_items d (S i) rest
      | ItemBad e => (d, Some e)
      end
  end.

(** The dict after [d.update(doc)], and the exception it ends with, if
    any. *)
Definition update_from_doc (d : gmap string json) (doc : json)
  : gmap string json * option exn :=
  match doc with
  | JObj kvs => (dict_update d kvs, None)
  | _ =>
      match as_sequence doc with
      | Some items => update_items d 0 items
      | None =>
          (d, Some (Exn "TypeError" ("'" +:+ py_type_name doc +:+ "' object is not iterable")))
      end
  end.

(** [format_predictions(df, predictions, confidence)] *)
Definition format_entry (i : nat) (pc : string * option Q) : json :=
  JObj [("id", JInt (Z.of_nat (i + 1)));
        ("prediction", JStr pc.1);
        ("confidence", match pc.2 with Some c => JFloat c | None => JNull end)].

Definition format_predictions (df : DataFrame) (predictions : list string)
    (confidence : list (option Q)) : list json :=
  imap format_entry (zip predictions confidence).

(** What [create_mock_model] builds: a random forest of 10 trees with
    [random_state=42], fitted on
    [make_classification(n_samples=100, n_features=4, random_state=42)]. *)
Definition mock_classifier : classifier :=
  {| n_estimators := 10; random_state := 42;
     fit_samples := 100; fit_features := 4; fit_random_state := 42 |}.

(** [os.path.join(MODEL_FOLDER, 'model.pkl')] *)
Definition model_pkl : string := path_join MODEL_FOLDER "model.pkl".

Section Service.
Context (env : Env).

(** *** File system *)

(** [os.path.exists(path)] *)
Definition os_path_exists (path : string) : M bool :=
  s ← get; mret (bool_decide (is_Some (fs s !! path))).

(** [datetime.fromtimestamp(os.path.getmtime(path))]: the time of the file
    as a [datetime], unless the file is missing or its time cannot be
    converted. *)
Definition getmtime (path : string) : M datetime :=
  s ← get;
  match fs s !! path with
  | Some f =>
      match mtime_fault env path with
      | Some e => raise e
      | None => mret (mtime f)
      end
  | None => raise (Exn "FileNotFoundError" ("No such file or directory: '" +:+ path +:+ "'"))
  end.

(** [open(path, 'w')] followed by writing [data] and closing.  Opening
    empties the file; a write that fails after that leaves the characters
    that got through. *)
Definition write_file (path data : string) : M unit :=
  match write_fault env path with
  | Some e =>
      match fault_after env path with
      | None => raise e
      | Some n =>
          s ← get;
          modify (set_fs (<[path := {| content := String.substring 0 n data;
                                       mtime := now env |}]> (fs s)));;
          raise e
      end
  | None =>
      s ← get;
      modify (set_fs (<[path := {| content := data; mtime := now env |}]> (fs s)))
  end.

(** [open(path, 'r')] and reading everything. *)
Definition read_file (path : string) : M string :=
  s ← get;
  match fs s !! path with
  | Some f => mret (content f)
  | None => raise (Exn "FileNotFoundError" ("No such file or directory: '" +:+ path +:+ "'"))
  end.

(** [file.save(filepath)] *)
Definition save (file : FileStorage) (filepath : string) : M unit :=
  write_file filepath (stream file);;
  modify (add_event (EvSave filepath)).

(** [pd.read_csv(filepath)] *)
Definition read_csv (filepath : string) : M DataFrame :=
  modify (add_event (EvReadCsv filepath));;
  text ← read_file filepath;
  lift_result (csv_parser env text).

(** *** class MLModel, on the global instance [ml_model] *)

(** [MLModel.create_mock_model] *)
Definition MLModel_create_mock_model : M classifier :=
  match sklearn_fault env with
  | Some e => raise e
  | None => mret mock_classifier
  end.

(** [MLModel.load_model(model_path)]: [model_path] is not read. *)
Definition MLModel_load_model (model_path : string) : M bool :=
  try_except
    (m ← MLModel_create_mock_model;
     modify (fun s => set_ml_model
               {| is_trained := is_trained (ml_model s); model := Some m |} s);;
     modify (fun s => set_ml_model
               {| is_trained := true; model := model (ml_model s) |} s);;
     mret true)
    (fun e => print ("Error loading model: " +:+ str_exn e);; mret false).

(** [MLModel.predict(data)]; a [DataFrame] has a [shape]. *)
Definition MLModel_predict (data : DataFrame)
  : M (option (list string) * option (list Q)) :=
  s ← get;
  if negb (is_trained (ml_model s)) || negb (bool_decide (is_Some (model (ml_model s))))
  then mret (None, None)
  else
    try_except
      (let n_samples := (shape data).1 in
       predictions ← Numpy.choice env stub_labels n_samples;
       confidence ← Numpy.uniform env 0.7 0.95 n_samples;
       mret (Some predictions, Some confidence))
      (fun e => print ("Prediction error: " +:+ str_exn e);; mret (None, None)).

(** *** Metadata record *)

Definition metadata_path : string := path_join MODEL_FOLDER "model_metadata.json".

(** [model_metadata.update(doc)]: what was stored before a bad element
    stays in the dict. *)
Definition metadata_update (doc : json) : M unit :=
  s ← get;
  modify (set_model_metadata (update_from_doc (model_metadata s) doc).1);;
  match (update_from_doc (model_metadata s) doc).2 with
  | Some e => raise e
  | None => mret tt
  end.

(** [load_model_metadata()] *)
Definition load_model_metadata : M unit :=
  try_except
    (ex ← os_path_exists metadata_path;
     if ex : bool then
       text ← read_file metadata_path;
       doc ← lift_result (json_parser env text);
       metadata_update doc
     else mret tt)
    (fun e => print ("Error loading model metadata: " +:+ str_exn e)).

(** [save_model_metadata()] *)
Definition save_model_metadata : M unit :=
  try_except
    (s ← get;
     write_file metadata_path (json_printer env (JObj (map_to_list (model_metadata s))));;
     modify (add_event (EvWriteMetadata metadata_path)))
    (fun e => print ("Error saving model metadata: " +:+ str_exn e)).

(** [model_metadata[k] = v] *)
Definition setitem (k : string) (v : json) : M unit :=
  modify (fun s => set_model_metadata (<[k := v]> (model_metadata s)) s).

(** The placeholder descriptor of the mock model. *)
Definition mock_descriptor : list (string * json) :=
  [("model_type", JStr "Random Forest (Mock)");
   ("accuracy", JFloat 0.85);
   ("last_trained", JStr (Datetime.isoformat (now env)));
   ("features", JArr [JStr "Feature1"; JStr "Feature2"; JStr "Feature3"; JStr "Feature4"]);
   ("status", JStr "Mock model loaded for testing")].

(** [initialize_app()] *)
Definition initialize_app : M unit :=
  print "Initializing application...";;
  let model_path := model_pkl in
  ex ← os_path_exists model_path;
  (if ex : bool then
     print "Found existing model, loading...";;
     ok ← MLModel_load_model model_path;
     if ok : bool then
       setitem "status" (JStr "Model loaded successfully");;
       mt ← getmtime model_path;
       setitem "last_trained" (JStr (Datetime.isoformat mt));;
       print "Model loaded successfully"
     else
       setitem "status" (JStr "Error loading model");;
       print "Error loading model"
   else
     print "No model found, creating mock model for testing...";;
     ok ← MLModel_load_model "mock";
     if ok : bool then
       modify (fun s => set_model_metadata (dict_update (model_metadata s) mock_descriptor) s);;
       save_model_metadata;;
       print "Mock model created successfully"
     else mret tt);;
  load_model_metadata;;
  print "Application initialized successfully".

(** *** Routes *)

(** The error envelope [{"success": False, "error": msg}]. *)
Definition error_body (msg : string) : json :=
  JObj [("success", JBool false); ("error", JStr msg)].

(** [GET /api/health] *)
Definition health_check : M Response :=
  s ← get;
  st ← getitem (model_metadata s) "status";
  mret (jsonify (JObj [("status", JStr "healthy");
                       ("timestamp", JStr (Datetime.isoformat (now env)));
                       ("message", JStr "ML Workshop Backend is running");
                       ("model_status", st)])).

(** [GET /api/model-info] *)
Definition get_model_info : M Response :=
  s ← get;
  mt ← getitem (model_metadata s) "model_type";
  acc ← getitem (model_metadata s) "accuracy";
  lt ← getitem (model_metadata s) "last_trained";
  ft ← getitem (model_metadata s) "features";
  st ← getitem (model_metadata s) "status";
  mret (jsonify (JObj [("success", JBool true); ("model_type", mt); ("accuracy", acc);
                       ("last_trained", lt); ("features", ft); ("status", st)])).

(** Where [predict] stores the upload. *)
Definition upload_path : string :=
  path_join UPLOAD_FOLDER ("upload_" +:+ Datetime.strftime_compact (now env) +:+ ".csv").

(** The inner [try] of [predict]: either the table to go on with, or the
    response returned from inside the block. *)
Definition load_dataset (filepath : string) : M (DataFrame + Response) :=
  try_except
    (df ← read_csv filepath;
     if df_empty df
     then mret (inr (jsonify_code (error_body "CSV file is empty") 400))
     else
       print ("Successfully loaded CSV with " +:+ PyStr.of_nat (df_len df) +:+ " rows and "
              +:+ PyStr.of_nat (length (df_columns df)) +:+ " columns");;
       mret (inl df))
    (fun e => mret (inr (jsonify_code (error_body ("Error reading CSV: " +:+ str_exn e)) 400))).

(** The part of [predict] after the table is loaded. *)
Definition predict_on (df : DataFrame) : M Response :=
  pc ← MLModel_predict df;
  match pc.1 with
  | None => mret (jsonify_code (error_body "Model prediction failed") 500)
  | Some predictions =>
      results ←
        match pc.2 with
        | Some confidence => mret (format_predictions df predictions (map Some confidence))
        | None => raise (Exn "TypeError" "'NoneType' object is not iterable")
        end;
      print ("Successfully generated predictions for " +:+ PyStr.of_nat (length results)
             +:+ " samples");;
      s ← get;
      mt ← getitem (model_metadata s) "model_type";
      acc ← getitem (model_metadata s) "accuracy";
      mret (jsonify (JObj [("success", JBool true);
                           ("predictions", JArr results);
                           ("summary", JObj [("total_samples", JInt (Z.of_nat (df_len df)));
                                             ("model_used", mt);
                                             ("accuracy", acc)])]))
  end.

(** The body of the outer [try] of [predict]. *)
Definition predict_body (req : Request) : M Response :=
  match files req !! "file" with
  | None => mret (jsonify_code (error_body "No file uploaded") 400)
  | Some file =>
      if String.eqb (filename file) ""
      then mret (jsonify_code (error_body "No file selected") 400)
      else if negb (PyStr.endswith (PyStr.lower (filename file)) ".csv")
      then mret (jsonify_code (error_body "File must be CSV format") 400)
      else
        let filepath := upload_path in
        save file filepath;;
        loaded ← load_dataset filepath;
        match loaded with
        | inr early => mret early
        | inl df => predict_on df
        end
  end.

(** [POST /api/predict] *)
Definition predict (req : Request) : M Response :=
  try_except (predict_body req)
    (fun e =>
       print ("Error in predict endpoint: " +:+ str_exn e);;
       mret (jsonify_code (error_body ("Server error: " +:+ str_exn e)) 500)).

(** [POST /api/upload-model] *)
Definition upload_model : M Response :=
  mret (jsonify (JObj [("success", JBool false);
                       ("error", JStr "Model upload endpoint not implemented yet");
                       ("message", JStr "This endpoint will be used by the ML team to upload their trained model")])).

(** [GET /] *)
Definition index : M Response :=
  mret (jsonify (JObj [("message", JStr "ML Workshop Backend API");
                       ("endpoints", JObj [("health", JStr "/api/health");
                                           ("model_info", JStr "/api/model-info");
                                           ("predict", JStr "/api/predict");
                                           ("upload_model", JStr "/api/upload-model")]);
                       ("status", JStr "running")])).

End Service.

(** The state of a freshly imported module: default metadata, an untrained
    [MLModel], and whatever is on disk. *)
Definition module_loaded (disk : gmap string file) : Sys :=
  {| model_metadata := model_metadata_init; ml_model := MLModel_init; fs := disk;
     rng_pos := 0; io_log := []; stdout := [] |}.

(** Several [GET /api/health] calls in a row; each call sees its own
    environment (time passes between calls).  A call that raises is answered
    by Flask with a 500 and the process goes on. *)
Definition health_calls (envs : list Env) (s : Sys) : Sys :=
  foldl (fun acc env => (health_check env acc).2) s envs.

(** ** Concrete environments for examples *)

Module Sample.

Definition nl : string := String (Ascii.ascii_of_nat 10) EmptyString.

(** Cut [s] at every occurrence of [sep]. *)
Fixpoint split_on (sep : Ascii.ascii) (s : string) : list string :=
  match s with
  | EmptyString => [EmptyString]
  | String c r =>
      if Ascii.eqb c sep then EmptyString :: split_on sep r
      else match split_on sep r with
           | [] => [String c EmptyString]
           | w :: ws => String c w :: ws
           end
  end.

(** A small comma-separated reader standing in for [pandas.read_csv]:
    no text at all raises [EmptyDataError], otherwise the first line is the
    header and every further non-blank line is a row. *)
Definition small_csv (text : string) : result DataFrame :=
  if String.eqb text ""
  then Raise (Exn "EmptyDataError" "No columns to parse from file")
  else
    match split_on (Ascii.ascii_of_nat 10) text with
    | [] => Raise (Exn "EmptyDataError" "No columns to parse from file")
    | header :: lines =>
        Ok {| df_columns := split_on "," header;
              df_rows := map (split_on ",")
                           (filter (fun l => l ≠ "") lines) |}
    end.

Definition noon : datetime :=
  {| year := 2025; month := 3; day := 9; hour := 14; minute := 5; second := 0;
     microsecond := 0 |}.

Definition env : Env :=
  {| now := noon;
     draws := fun i => (7919 * N.of_nat i + 5)%N;
     write_fault := fun _ => None;
     fault_after := fun _ => None;
     mtime_fault := fun _ => None;
     sklearn_fault := None;
     csv_parser := small_csv;
     json_parser := fun _ => Raise (Exn "JSONDecodeError" "Expecting value");
     json_printer := fun _ => "{}" |}.

(** The same surroundings with a full disk: every write fails after the
    file was opened, with nothing written. *)
Definition env_disk_full : Env :=
  {| now := noon;
     draws := draws env;
     write_fault := fun _ => Some (Exn "OSError" "[Errno 28] No space left on device");
     fault_after := fun _ => Some 0%nat;
     mtime_fault := fun _ => None;
     sklearn_fault := None;
     csv_parser := small_csv;
     json_parser := json_parser env;
     json_printer := json_printer env |}.

Definition upload (name text : string) : Request :=
  {| files := {[ "file" := {| filename := name; stream := text |} ]} |}.

(** Three rows, two columns. *)
Definition csv_3x2 : string :=
  "a,b" +:+ nl +:+ "1,2" +:+ nl +:+ "3,4" +:+ nl +:+ "5,6" +:+ nl.

Definition file_3x2 : FileStorage := {| filename := "data.csv"; stream := csv_3x2 |}.
Definition req_3x2 : Request := upload "data.csv" csv_3x2.
Definition df_3x2 : DataFrame :=
  {| df_columns := ["a"; "b"];
     df_rows := [["1"; "2"]; ["3"; "4"]; ["5"; "6"]] |}.

(** The state after [initialize_app] on an empty disk. *)
Definition started : Sys := (initialize_app env (module_loaded ∅)).2.

(** Two disks holding different model artifacts, last written on New
    Year's Day 2024. *)
Definition new_year : datetime :=
  {| year := 2024; month := 1; day := 1; hour := 0; minute := 0; second := 0;
     microsecond := 0 |}.

Definition artifact_a : file := {| content := "AAAA"; mtime := new_year |}.
Definition disk_a : gmap string file := {[ model_pkl := artifact_a ]}.

End Sample.

(** ** Reading responses *)

Definition predictor_ready (s : Sys) : bool :=
  is_trained (ml_model s) && bool_decide (is_Some (model (ml_model s))).

(** The upload of [req] passes the presence, filename and extension checks. *)
Definition passes_checks (req : Request) (file : FileStorage) : Prop :=
  files req !! "file" = Some file ∧
  filename file ≠ "" ∧
  PyStr.endswith (PyStr.lower (filename file)) ".csv" = true.

(** The upload passes the checks, is stored, and parses to the table [df]. *)
Definition upload_loads (env : Env) (req : Request) (df : DataFrame) : Prop :=
  ∃ file, passes_checks req file ∧
          write_fault env (upload_path env) = None ∧
          csv_parser env (stream file) = Ok df.

(** A success response that answers [n] rows: [n] entries with ids 1..n in
    list order, and [summary.total_samples = n]. *)
Definition answers_rows (r : result Response) (n : nat) : Prop :=
  ∃ resp results summary,
    r = Ok resp ∧ status resp = 200 ∧
    jfield "success" (body resp) = Some (JBool true) ∧
    jfield "predictions" (body resp) = Some (JArr results) ∧
    length results = n ∧
    (∀ i entry, results !! i = Some entry →
                jfield "id" entry = Some (JInt (Z.of_nat (i + 1)))) ∧
    jfield "summary" (body resp) = Some summary ∧
    jfield "total_samples" summary = Some (JInt (Z.of_nat n)).

(** What [load_model_metadata] leaves in the dict [d] for a given disk. *)
Definition persisted_over (env : Env) (disk : gmap string file)
    (d : gmap string json) : gmap string json :=
  match disk !! metadata_path with
  | None => d
  | Some f =>
      match json_parser env (content f) with
      | Ok doc => (update_from_doc d doc).1
      | Raise _ => d
      end
  end.

(** [s'] has the metadata dict, the model and the persisted metadata record
    of [s]. *)
Definition same_model_state (s s' : Sys) : Prop :=
  model_metadata s' = model_metadata s ∧
  ml_model s' = ml_model s ∧
  fs s' !! metadata_path = fs s !! metadata_path.

Definition preserves {A} (m : M A) : Prop := ∀ s, same_model_state s (m s).2.

(** The state right after [file.save] stored the upload, and after
    [pd.read_csv] opened it. *)
Definition after_save (env : Env) (file : FileStorage) (s : Sys) : Sys :=
  add_event (EvSave (upload_path env))
    (set_fs (<[upload_path env := {| content := stream file; mtime := now env |}]> (fs s)) s).

(** The state after [file.save] failed: untouched when the file could not
    be opened, else with the part of the upload that got through. *)
Definition after_refusal (env : Env) (file : FileStorage) (s : Sys) : Sys :=
  match fault_after env (upload_path env) with
  | None => s
  | Some n =>
      set_fs (<[upload_path env := {| content := String.substring 0 n (stream file);
                                      mtime := now env |}]> (fs s)) s
  end.

Definition after_read (env : Env) (file : FileStorage) (s : Sys) : Sys :=
  add_event (EvReadCsv (upload_path env)) (after_save env file s).

(** The raw numbers [MLModel.predict] consumes for labels and confidences. *)
Definition label_draws (env : Env) (s : Sys) (n : nat) : list N :=
  map (fun i => draws env (rng_pos s + i)) (seq 0 n).

Definition confidence_draws (env : Env) (s : Sys) (n : nat) : list N :=
  map (fun i => draws env (rng_pos s + n + i)) (seq 0 n).

(** ** The route table *)

(** A request that reaches one of the five view functions registered with
    [@app.route]. *)
Inductive route :=
| Health                    (* GET /api/health *)
| ModelInfo                 (* GET /api/model-info *)
| Predict (req : Request)   (* POST /api/predict *)
| UploadModel               (* POST /api/upload-model *)
| Index.                    (* GET / *)

Definition dispatch (env : Env) (r : route) : M Response :=
  match r with
  | Health => health_check env
  | ModelInfo => get_model_info
  | Predict req => predict env req
  | UploadModel => upload_model
  | Index => index
  end.

(** Requests served one after the other, each in the environment of its
    time.  A view that raises is answered by Flask with a 500 and the
    process goes on from the state the view left. *)
Fixpoint serve (calls : list (Env * route)) (s : Sys) : list (result Response) * Sys :=
  match calls with
  | [] => ([], s)
  | (env, r) :: rest =>
      let out := dispatch env r s in
      let later := serve rest out.2 in
      (out.1 :: later.1, later.2)
  end.

(** The keys of the literal that initialises [model_metadata]. *)
Definition default_keys : list string :=
  ["model_type"; "accuracy"; "last_trained"; "features"; "status"].

Definition has_default_keys (d : gmap string json) : Prop :=
  Forall (fun k => is_Some (d !! k)) default_keys.

(** The document [save_model_metadata] hands to [json.dump]. *)
Definition metadata_doc (d : gmap string json) : json := JObj (map_to_list d).

(** The disk after [save_model_metadata] wrote the record for [d]. *)
Definition disk_with_record (env : Env) (d : gmap string json)
    (disk : gmap string file) : gmap string file :=
  <[metadata_path := {| content := json_printer env (metadata_doc d); mtime := now env |}]> disk.

(** The two shapes of a JSON answer of [predict]: a 200 with
    ["success": true] and no ["error"], or a 400 or 500 with
    ["success": false] and an ["error"] string. *)
Definition envelope (resp : Response) : Prop :=
  (status resp = 200%nat ∧
   jfield "success" (body resp) = Some (JBool true) ∧
   jfield "error" (body resp) = None) ∨
  ((status resp = 400%nat ∨ status resp = 500%nat) ∧
   jfield "success" (body resp) = Some (JBool false) ∧
   ∃ msg, jfield "error" (body resp) = Some (JStr msg)).

(** The state after [save_model_metadata] failed to write the record for
    the dict of [s]: untouched when the record could not be opened, else with
    the part of the dump that got through. *)
Definition after_record_refusal (env : Env) (s : Sys) : Sys :=
  match fault_after env metadata_path with
  | None => s
  | Some n =>
      set_fs (<[metadata_path :=
                  {| content := String.substring 0 n
                                  (json_printer env (metadata_doc (model_metadata s)));
                     mtime := now env |}]> (fs s)) s
  end.

(** More sample surroundings. *)
Module Demo.

(** scikit-learn is not installed. *)
Definition env_no_sklearn : Env :=
  {| now := Sample.noon;
     draws := draws Sample.env;
     write_fault := fun _ => None;
     fault_after := fun _ => None;
     mtime_fault := fun _ => None;
     sklearn_fault := Some (Exn "ModuleNotFoundError" "No module named 'sklearn'");
     csv_parser := Sample.small_csv;
     json_parser := json_parser Sample.env;
     json_printer := json_printer Sample.env |}.

(** A disk with a model artifact and a metadata record left by an earlier
    run of the mock, and surroundings whose [json.load] reads that record. *)
Definition stale_record : list (string * json) :=
  [("status", JStr "Mock model loaded for testing"); ("accuracy", JFloat 0.85)].

Definition env_stale : Env :=
  {| now := Sample.noon;
     draws := draws Sample.env;
     write_fault := fun _ => None;
     fault_after := fun _ => None;
     mtime_fault := fun _ => None;
     sklearn_fault := None;
     csv_parser := Sample.small_csv;
     json_parser := fun _ => Ok (JObj stale_record);
     json_printer := json_printer Sample.env |}.

Definition disk_stale : gmap string file :=
  <[metadata_path := {| content := "{}"; mtime := Sample.new_year |}]> Sample.disk_a.

(** A later moment within the same second as [Sample.noon]. *)
Definition env_same_second : Env :=
  {| now := {| year := 2025; month := 3; day := 9; hour := 14; minute := 5; second := 0;
               microsecond := 730 |};
     draws := draws Sample.env;
     write_fault := fun _ => None;
     fault_after := fun _ => None;
     mtime_fault := fun _ => None;
     sklearn_fault := None;
     csv_parser := Sample.small_csv;
     json_parser := json_parser Sample.env;
     json_printer := json_printer Sample.env |}.

(** Surroundings whose [json.load] gives back the record that
    [initialize_app] dumps for the mock model at [Sample.noon]. *)
Definition mock_doc : json :=
  metadata_doc (dict_update model_metadata_init (mock_descriptor Sample.env)).

Definition env_codec : Env :=
  {| now := Sample.noon;
     draws := draws Sample.env;
     write_fault := fun _ => None;
     fault_after := fun _ => None;
     mtime_fault := fun _ => None;
     sklearn_fault := None;
     csv_parser := Sample.small_csv;
     json_parser := fun text => if String.eqb text "saved" then Ok mock_doc
                                else Raise (Exn "JSONDecodeError" "Expecting value");
     json_printer := fun _ => "saved" |}.

(** The time of every file is out of the range of [datetime]. *)
Definition env_bad_time : Env :=
  {| now := Sample.noon;
     draws := draws Sample.env;
     write_fault := fun _ => None;
     fault_after := fun _ => None;
     mtime_fault := fun _ => Some (Exn "ValueError" "year 292277026596 is out of range");
     sklearn_fault := None;
     csv_parser := Sample.small_csv;
     json_parser := json_parser Sample.env;
     json_printer := json_printer Sample.env |}.

(** A record that is an array: a pair, a number, and a pair that is never
    reached. *)
Definition pairs_record : json :=
  JArr [JArr [JStr "status"; JStr "from the record"];
        JInt 5;
        JArr [JStr "accuracy"; JInt 1]].

Definition req_other : Request := Sample.upload "other.csv" ("x" +:+ Sample.nl +:+ "9" +:+ Sample.nl).
Definition file_other : FileStorage :=
  {| filename := "other.csv"; stream := "x" +:+ Sample.nl +:+ "9" +:+ Sample.nl |}.

End Demo.

(** * Properties *)

Ltac munfold :=
  unfold mbind, M_bind, bind, mret, M_ret, ret, raise, try_except, get, modify,
    lift_result, print in *.

(** ** The monad and the primitive operations *)

Lemma getitem_Some d k v s : d !! k = Some v → getitem d k s = (Ok v, s).
Proof. intros H. unfold getitem. by rewrite H. Qed.

Lemma MLModel_predict_not_ready env data s :
  predictor_ready s = false → MLModel_predict env data s = (Ok (None, None), s).
Proof.
  unfold predictor_ready, MLModel_predict. munfold. intros H.
  destruct (is_trained (ml_model s)), (bool_decide (is_Some (model (ml_model s))));
    simpl in *; done.
Qed.

Lemma MLModel_predict_ready env data s :
  predictor_ready s = true →
  MLModel_predict env data s =
    (Ok (Some (map (Numpy.choice1 stub_labels) (label_draws env s (df_len data))),
         Some (map (Numpy.uniform1 0.7 0.95) (confidence_draws env s (df_len data)))),
     set_rng_pos (rng_pos s + df_len data + df_len data) s).
Proof.
  unfold predictor_ready, MLModel_predict. munfold. intros H.
  destruct (is_trained (ml_model s)), (bool_decide (is_Some (model (ml_model s))));
    simpl in *; done.
Qed.

(** ** numpy.random *)

Lemma random_sample_range raw :
  (0 <= Numpy.random_sample raw)%Q ∧ (Numpy.random_sample raw < 1)%Q.
Proof.
  unfold Numpy.random_sample, Qle, Qlt; simpl.
  pose proof (N.mod_upper_bound raw 9007199254740992 ltac:(done)) as Hlt.
  generalize dependent (raw `mod` 9007199254740992)%N. intros k Hlt. lia.
Qed.

Lemma uniform1_range low high raw :
  (low <= high)%Q →
  (low <= Numpy.uniform1 low high raw)%Q ∧ (Numpy.uniform1 low high raw <= high)%Q.
Proof.
  intros Hlh. unfold Numpy.uniform1.
  destruct (random_sample_range raw) as [H0 H1].
  set (u := Numpy.random_sample raw) in *.
  assert (Hd : (0 <= high - low)%Q) by lra.
  assert (Hp : (0 <= (high - low) * u)%Q) by (apply Qmult_le_0_compat; done).
  assert (Hq : (u * (high - low) <= 1 * (high - low))%Q).
  { apply Qmult_le_compat_r; [lra | done]. }
  split; lra.
Qed.

Lemma choice1_elem (a : list string) raw : a ≠ [] → Numpy.choice1 a raw ∈ a.
Proof.
  intros Ha. unfold Numpy.choice1.
  apply list_elem_of_In, nth_In.
  assert (0 < length a)%nat by (destruct a; [done | simpl; lia]).
  pose proof (N.mod_upper_bound raw (N.of_nat (length a)) ltac:(lia)) as Hlt.
  generalize dependent (raw `mod` N.of_nat (length a))%N. intros k Hlt. lia.
Qed.

(** ** format_predictions *)

Example format_predictions_two_rows :
  format_predictions Sample.df_3x2 ["Class B"; "Class A"] [Some 0.8%Q; None] =
    [JObj [("id", JInt 1); ("prediction", JStr "Class B"); ("confidence", JFloat 0.8)];
     JObj [("id", JInt 2); ("prediction", JStr "Class A"); ("confidence", JNull)]].
Proof. reflexivity. Qed.

Lemma format_predictions_length df (predictions : list string) (confidence : list (option Q)) :
  length predictions = length confidence →
  length (format_predictions df predictions confidence) = length predictions.
Proof.
  intros H. unfold format_predictions. rewrite length_imap, length_zip_with. lia.
Qed.

Lemma format_predictions_id df (predictions : list string) (confidence : list (option Q))
    (i : nat) (entry : json) :
  format_predictions df predictions confidence !! i = Some entry →
  jfield "id" entry = Some (JInt (Z.of_nat (i + 1))).
Proof.
  unfold format_predictions. rewrite list_lookup_imap.
  destruct (zip predictions confidence !! i) as [pc|]; simpl; [|done].
  intros [= <-]. reflexivity.
Qed.

(** ** Frame reasoning: what a computation leaves alone *)

Create HintDb frame.

Lemma same_model_state_refl s : same_model_state s s.
Proof. done. Qed.

Lemma same_model_state_trans s1 s2 s3 :
  same_model_state s1 s2 → same_model_state s2 s3 → same_model_state s1 s3.
Proof. intros (?&?&?) (?&?&?). repeat split; congruence. Qed.

Lemma preserves_ret {A} (a : A) : preserves (mret a : M A).
Proof. intros s. apply same_model_state_refl. Qed.

Lemma preserves_raise {A} e : preserves (raise e : M A).
Proof. intros s. apply same_model_state_refl. Qed.

Lemma preserves_get : preserves get.
Proof. intros s. apply same_model_state_refl. Qed.

Lemma preserves_lift {A} (r : result A) : preserves (lift_result r).
Proof. intros s. apply same_model_state_refl. Qed.

Lemma preserves_bind {A B} (m : M A) (k : A → M B) :
  preserves m → (∀ a, preserves (k a)) → preserves (m ≫= k).
Proof.
  intros Hm Hk s. specialize (Hm s). munfold.
  destruct (m s) as [[a|e] s1]; simpl in *; [|done].
  eapply same_model_state_trans; [exact Hm | apply Hk].
Qed.

Lemma preserves_try {A} (m : M A) (h : exn → M A) :
  preserves m → (∀ e, preserves (h e)) → preserves (try_except m h).
Proof.
  intros Hm Hh s. specialize (Hm s). munfold.
  destruct (m s) as [[a|e] s1]; simpl in *; [done|].
  eapply same_model_state_trans; [exact Hm | apply Hh].
Qed.

Lemma preserves_print line : preserves (print line).
Proof. intros s. done. Qed.

Lemma preserves_add_event e : preserves (modify (add_event e)).
Proof. intros s. done. Qed.

Lemma preserves_set_rng_pos n : preserves (modify (set_rng_pos n)).
Proof. intros s. done. Qed.

Lemma preserves_getitem d k : preserves (getitem d k).
Proof. intros s. unfold getitem. destruct (d !! k); done. Qed.

Lemma preserves_write_file env path data :
  path ≠ metadata_path → preserves (write_file env path data).
Proof.
  intros Hne s. unfold write_file.
  destruct (write_fault env path); [destruct (fault_after env path); [|done]|];
    repeat split; simpl; by rewrite lookup_insert_ne.
Qed.

Lemma preserves_read_file path : preserves (read_file path).
Proof. intros s. unfold read_file. munfold. destruct (fs s !! path); done. Qed.

#[export] Hint Resolve preserves_ret preserves_raise preserves_get preserves_lift
  preserves_print preserves_add_event preserves_set_rng_pos preserves_getitem
  preserves_read_file : frame.

Ltac frame_step :=
  first [ solve [auto with frame]
        | apply preserves_bind; [|intros ?]
        | apply preserves_try; [|intros ?] ].

Lemma upload_path_not_metadata env : upload_path env ≠ metadata_path.
Proof. unfold upload_path, metadata_path, path_join. simpl. discriminate. Qed.

Lemma preserves_save env file : preserves (save env file (upload_path env)).
Proof.
  unfold save. frame_step; [|frame_step].
  apply preserves_write_file, upload_path_not_metadata.
Qed.

Lemma preserves_read_csv env path : preserves (read_csv env path).
Proof. unfold read_csv. repeat frame_step. Qed.

Lemma preserves_take_draws env size : preserves (Numpy.take_draws env size).
Proof. unfold Numpy.take_draws. repeat frame_step. Qed.

#[export] Hint Resolve preserves_save preserves_read_csv preserves_take_draws : frame.

Lemma preserves_load_dataset env path : preserves (load_dataset env path).
Proof.
  unfold load_dataset. frame_step; [|frame_step].
  frame_step; [frame_step|].
  destruct (df_empty a); repeat frame_step.
Qed.

Lemma preserves_MLModel_predict env data : preserves (MLModel_predict env data).
Proof.
  unfold MLModel_predict. frame_step; [frame_step|].
  destruct (_ || _); [frame_step|].
  unfold Numpy.choice, Numpy.uniform, stub_labels.
  repeat frame_step.
Qed.

#[export] Hint Resolve preserves_load_dataset preserves_MLModel_predict : frame.

Lemma preserves_predict_on env df : preserves (predict_on env df).
Proof.
  unfold predict_on. frame_step; [frame_step|].
  destruct a.1; [|frame_step].
  frame_step; [destruct a.2; frame_step|].
  repeat frame_step.
Qed.

Lemma preserves_predict_body env req : preserves (predict_body env req).
Proof.
  unfold predict_body.
  destruct (files req !! "file") as [file|]; [|frame_step].
  destruct (String.eqb _ _); [frame_step|].
  destruct (negb _); [frame_step|].
  frame_step; [frame_step|].
  frame_step; [frame_step|].
  destruct a0; [apply preserves_predict_on | frame_step].
Qed.

Lemma preserves_predict env req : preserves (predict env req).
Proof.
  unfold predict. frame_step; [apply preserves_predict_body|]. repeat frame_step.
Qed.

(** ** Running [predict] step by step *)

Lemma save_stored env file s :
  write_fault env (upload_path env) = None →
  save env file (upload_path env) s = (Ok tt, after_save env file s).
Proof. intros H. unfold save, write_file. rewrite H. reflexivity. Qed.

Lemma save_refused env file s e :
  write_fault env (upload_path env) = Some e →
  save env file (upload_path env) s = (Raise e, after_refusal env file s).
Proof.
  intros H. unfold save, write_file, after_refusal. rewrite H.
  destruct (fault_after env (upload_path env)); reflexivity.
Qed.

Lemma read_csv_stored env file s :
  read_csv env (upload_path env) (after_save env file s) =
    (csv_parser env (stream file), after_read env file s).
Proof.
  unfold read_csv, read_file. munfold. simpl.
  rewrite lookup_insert_eq. simpl. by destruct (csv_parser env (stream file)).
Qed.

Lemma load_dataset_stored env file s :
  load_dataset env (upload_path env) (after_save env file s) =
    match csv_parser env (stream file) with
    | Ok df =>
        if df_empty df
        then (Ok (inr (jsonify_code (error_body "CSV file is empty") 400)),
              after_read env file s)
        else (Ok (inl df),
              add_stdout ("Successfully loaded CSV with " +:+ PyStr.of_nat (df_len df)
                          +:+ " rows and " +:+ PyStr.of_nat (length (df_columns df))
                          +:+ " columns") (after_read env file s))
    | Raise e =>
        (Ok (inr (jsonify_code (error_body ("Error reading CSV: " +:+ str_exn e)) 400)),
         after_read env file s)
    end.
Proof.
  unfold load_dataset. unfold try_except, mbind, M_bind, bind at 1.
  rewrite read_csv_stored.
  destruct (csv_parser env (stream file)) as [df|e]; [|done].
  destruct (df_empty df); reflexivity.
Qed.

Lemma predict_body_checked env req file s :
  passes_checks req file →
  predict_body env req s =
    (save env file (upload_path env);;
     loaded ← load_dataset env (upload_path env);
     match loaded with
     | inr early => mret early
     | inl df => predict_on env df
     end) s.
Proof.
  intros (Hf & Hn & Hext). unfold predict_body. rewrite Hf, Hext.
  apply String.eqb_neq in Hn. rewrite Hn. reflexivity.
Qed.

Lemma predict_on_not_ready env df s :
  predictor_ready s = false →
  predict_on env df s =
    (Ok (jsonify_code (error_body "Model prediction failed") 500), s).
Proof.
  intros H. unfold predict_on, mbind, M_bind, bind.
  rewrite MLModel_predict_not_ready by done. reflexivity.
Qed.

Lemma predict_on_ready env df s mt acc :
  predictor_ready s = true →
  model_metadata s !! "model_type" = Some mt →
  model_metadata s !! "accuracy" = Some acc →
  let labels := map (Numpy.choice1 stub_labels) (label_draws env s (df_len df)) in
  let confs := map (Numpy.uniform1 0.7 0.95) (confidence_draws env s (df_len df)) in
  let results := format_predictions df labels (map Some confs) in
  predict_on env df s =
    (Ok (jsonify (JObj [("success", JBool true);
                        ("predictions", JArr results);
                        ("summary", JObj [("total_samples", JInt (Z.of_nat (df_len df)));
                                          ("model_used", mt);
                                          ("accuracy", acc)])])),
     add_stdout ("Successfully generated predictions for "
                 +:+ PyStr.of_nat (length results) +:+ " samples")
       (set_rng_pos (rng_pos s + df_len df + df_len df) s)).
Proof.
  intros Hr Hmt Hacc labels confs results.
  unfold predict_on. unfold mbind, M_bind, bind at 1.
  rewrite MLModel_predict_ready by done. simpl.
  munfold. simpl.
  rewrite (getitem_Some _ _ mt) by done.
  rewrite (getitem_Some _ _ acc) by done.
  reflexivity.
Qed.

(** ** Facts about the sample requests *)

Lemma Sample_checks_3x2 : passes_checks Sample.req_3x2 Sample.file_3x2.
Proof.
  split; [|split; [discriminate|reflexivity]].
  unfold Sample.req_3x2, Sample.upload. simpl. apply lookup_singleton_eq.
Qed.

Lemma Sample_loads_3x2 : upload_loads Sample.env Sample.req_3x2 Sample.df_3x2.
Proof.
  exists Sample.file_3x2. split; [apply Sample_checks_3x2|]. split; reflexivity.
Qed.

(** ** Claims *)

(** C1, as stated, fails on a process whose predictor is not ready: a valid
    three-row upload sent to a freshly imported module (where
    [initialize_app] has not run) parses fine and is answered with
    500 "Model prediction failed" instead of three predictions. *)
Lemma predict_rows_unready_counterexample :
  upload_loads Sample.env Sample.req_3x2 Sample.df_3x2 ∧
  df_empty Sample.df_3x2 = false ∧ df_len Sample.df_3x2 = 3%nat ∧
  (predict Sample.env Sample.req_3x2 (module_loaded ∅)).1 =
    Ok (jsonify_code (error_body "Model prediction failed") 500) ∧
  ¬ answers_rows (predict Sample.env Sample.req_3x2 (module_loaded ∅)).1 3.
Proof.
  assert (Hrun : (predict Sample.env Sample.req_3x2 (module_loaded ∅)).1 =
                 Ok (jsonify_code (error_body "Model prediction failed") 500))
    by (vm_compute; reflexivity).
  split; [apply Sample_loads_3x2|].
  split; [reflexivity|split; [reflexivity|split; [exact Hrun|]]].
  rewrite Hrun. intros (resp & results & summary & Heq & Hst & _).
  injection Heq as <-. simpl in Hst. discriminate.
Qed.

(** C1 (amended): for every valid non-empty upload with N rows that is
    stored and parsed, when the predictor is ready and the metadata dict has
    its [model_type] and [accuracy] keys, [POST /api/predict] answers 200
    with exactly N predictions whose ids are 1..N in order, and
    [summary.total_samples = N]. *)
Theorem predict_rows_when_ready env req s df :
  upload_loads env req df →
  df_empty df = false →
  predictor_ready s = true →
  is_Some (model_metadata s !! "model_type") →
  is_Some (model_metadata s !! "accuracy") →
  answers_rows (predict env req s).1 (df_len df).
Proof.
  intros (file & Hchk & Hw & Hparse) Hne Hready [mt Hmt] [acc Hacc].
  unfold predict, try_except.
  rewrite (predict_body_checked _ _ file) by done.
  unfold mbind, M_bind, bind.
  rewrite save_stored, load_dataset_stored, Hparse, Hne by done.
  erewrite predict_on_ready; [|done..].
  simpl.
  eexists _, _, _. split; [reflexivity|]. simpl.
  split; [done|]. split; [done|]. split; [done|].
  split; [|split; [|done]].
  - rewrite format_predictions_length; rewrite !length_map; unfold label_draws, confidence_draws;
      rewrite ?length_map, ?length_seq; done.
  - intros i entry. apply format_predictions_id.
Qed.

(** A three-row upload to a started service: ids 1, 2, 3 and
    [total_samples = 3]. *)
Lemma predict_rows_when_ready_witness :
  answers_rows (predict Sample.env Sample.req_3x2 Sample.started).1 3.
Proof.
  apply (predict_rows_when_ready Sample.env Sample.req_3x2 Sample.started Sample.df_3x2).
  - apply Sample_loads_3x2.
  - reflexivity.
  - reflexivity.
  - vm_compute. eauto.
  - vm_compute. eauto.
Defined.

(** C2: whatever the dataset and the state, the stub predictor does not
    raise; when it yields values there is one label and one confidence per
    row, every label is one of 'Class A', 'Class B', 'Class C' and every
    confidence lies in [0.7, 0.95]; it yields (None, None) only when it is
    not ready. *)
Theorem stub_predictor_range env data s :
  match (MLModel_predict env data s).1 with
  | Ok (Some labels, Some confs) =>
      length labels = df_len data ∧ length confs = df_len data ∧
      Forall (fun l => l ∈ ["Class A"; "Class B"; "Class C"]) labels ∧
      Forall (fun c => (0.7 <= c)%Q ∧ (c <= 0.95)%Q) confs
  | Ok (None, None) => predictor_ready s = false
  | _ => False
  end.
Proof.
  destruct (predictor_ready s) eqn:Hr.
  - rewrite MLModel_predict_ready by done. simpl.
    unfold label_draws, confidence_draws.
    rewrite !length_map, !length_seq. split; [done|]. split; [done|]. split.
    + apply Forall_map, Forall_forall. intros raw _. simpl.
      by apply (choice1_elem stub_labels).
    + apply Forall_map, Forall_forall. intros raw _. simpl.
      apply uniform1_range. by compute.
  - by rewrite MLModel_predict_not_ready.
Qed.

(** C3: an upload whose filename does not end in ".csv" (letter case
    ignored) is answered 400 with success false, whatever its content, and
    nothing is stored or changed. *)
Theorem non_csv_upload_rejected env req s file :
  files req !! "file" = Some file →
  PyStr.endswith (PyStr.lower (filename file)) ".csv" = false →
  ∃ resp msg,
    predict env req s = (Ok resp, s) ∧
    resp = jsonify_code (error_body msg) 400 ∧
    status resp = 400 ∧
    jfield "success" (body resp) = Some (JBool false) ∧
    (msg = "No file selected" ∨ msg = "File must be CSV format").
Proof.
  intros Hf Hext. unfold predict, try_except, predict_body. rewrite Hf, Hext.
  destruct (String.eqb (filename file) ""); simpl;
    eexists _, _; (split; [reflexivity|]); repeat split; auto.
Qed.

Lemma non_csv_upload_rejected_witness :
  ∃ resp msg,
    predict Sample.env (Sample.upload "notes.txt" Sample.csv_3x2) Sample.started
      = (Ok resp, Sample.started) ∧
    resp = jsonify_code (error_body msg) 400 ∧
    status resp = 400 ∧
    jfield "success" (body resp) = Some (JBool false) ∧
    (msg = "No file selected" ∨ msg = "File must be CSV format").
Proof.
  apply (non_csv_upload_rejected Sample.env (Sample.upload "notes.txt" Sample.csv_3x2)
           Sample.started {| filename := "notes.txt"; stream := Sample.csv_3x2 |}).
  - unfold Sample.upload. simpl. apply lookup_singleton_eq.
  - reflexivity.
Defined.

(** C4: an upload that parses into a table with zero rows is answered
    400 "CSV file is empty". *)
Theorem zero_row_table_rejected env req s df :
  upload_loads env req df →
  df_len df = 0%nat →
  ∃ resp,
    (predict env req s).1 = Ok resp ∧
    resp = jsonify_code (error_body "CSV file is empty") 400 ∧
    status resp = 400 ∧
    jfield "success" (body resp) = Some (JBool false).
Proof.
  intros (file & Hchk & Hw & Hparse) Hz.
  assert (He : df_empty df = true).
  { unfold df_empty, shape. unfold df_len in Hz. rewrite Hz. reflexivity. }
  unfold predict, try_except.
  rewrite (predict_body_checked _ _ file) by done.
  unfold mbind, M_bind, bind.
  rewrite save_stored, load_dataset_stored, Hparse, He by done.
  simpl. eexists. split; [reflexivity|]. done.
Qed.

(** A header line without rows. *)
Lemma zero_row_table_rejected_witness :
  ∃ resp,
    (predict Sample.env (Sample.upload "empty.csv" "a,b") Sample.started).1 = Ok resp ∧
    resp = jsonify_code (error_body "CSV file is empty") 400 ∧
    status resp = 400 ∧
    jfield "success" (body resp) = Some (JBool false).
Proof.
  apply (zero_row_table_rejected Sample.env (Sample.upload "empty.csv" "a,b")
           Sample.started {| df_columns := ["a"; "b"]; df_rows := [] |}).
  - exists {| filename := "empty.csv"; stream := "a,b" |}.
    split; [|split; reflexivity].
    split; [|split; [discriminate|reflexivity]].
    unfold Sample.upload. simpl. apply lookup_singleton_eq.
  - reflexivity.
Defined.

(** C5: when the predictor is not ready (not trained, or no model
    installed), [MLModel.predict] returns (None, None) without raising and
    without touching the state, and a request that got as far as prediction
    is answered 500 "Model prediction failed" with success false. *)
Theorem unready_predictor_unavailable env s data req df :
  is_trained (ml_model s) = false ∨ model (ml_model s) = None →
  upload_loads env req df →
  df_empty df = false →
  MLModel_predict env data s = (Ok (None, None), s) ∧
  ∃ resp,
    (predict env req s).1 = Ok resp ∧
    resp = jsonify_code (error_body "Model prediction failed") 500 ∧
    status resp = 500 ∧
    jfield "success" (body resp) = Some (JBool false).
Proof.
  intros Hnr (file & Hchk & Hw & Hparse) Hne.
  assert (Hr : ∀ s', ml_model s' = ml_model s → predictor_ready s' = false).
  { intros s' Heq. unfold predictor_ready. rewrite Heq.
    destruct Hnr as [-> | ->]; [done|]. by rewrite andb_false_r. }
  split; [by apply MLModel_predict_not_ready, Hr|].
  unfold predict, try_except.
  rewrite (predict_body_checked _ _ file) by done.
  unfold mbind, M_bind, bind.
  rewrite save_stored, load_dataset_stored, Hparse, Hne by done.
  rewrite predict_on_not_ready by (by apply Hr).
  simpl. eexists. split; [reflexivity|]. done.
Qed.

(** A freshly imported module has an untrained predictor. *)
Lemma unready_predictor_unavailable_witness :
  MLModel_predict Sample.env Sample.df_3x2 (module_loaded ∅)
    = (Ok (None, None), module_loaded ∅) ∧
  ∃ resp,
    (predict Sample.env Sample.req_3x2 (module_loaded ∅)).1 = Ok resp ∧
    resp = jsonify_code (error_body "Model prediction failed") 500 ∧
    status resp = 500%nat ∧
    jfield "success" (body resp) = Some (JBool false).
Proof.
  apply (unready_predictor_unavailable Sample.env (module_loaded ∅) Sample.df_3x2
           Sample.req_3x2 Sample.df_3x2).
  - left. reflexivity.
  - apply Sample_loads_3x2.
  - reflexivity.
Defined.

(** C6: every [POST /api/predict] request is answered with a response (the
    handler never raises), and afterwards the metadata dict is what it was
    before; so are the model and the persisted metadata record. *)
Theorem predict_keeps_metadata env req s :
  (∃ resp, (predict env req s).1 = Ok resp) ∧
  model_metadata (predict env req s).2 = model_metadata s ∧
  ml_model (predict env req s).2 = ml_model s ∧
  fs (predict env req s).2 !! metadata_path = fs s !! metadata_path.
Proof.
  split; [|apply preserves_predict].
  unfold predict, try_except.
  destruct (predict_body env req s) as [[resp|e] s']; simpl; eauto.
Qed.

Lemma predict_on_disk env df s :
  let s' := (predict_on env df s).2 in fs s' = fs s ∧ io_log s' = io_log s.
Proof.
  destruct (predictor_ready s) eqn:Hr; [|by rewrite predict_on_not_ready].
  unfold predict_on, mbind, M_bind, bind.
  rewrite MLModel_predict_ready by done. simpl. munfold. unfold getitem. simpl.
  destruct (model_metadata s !! "model_type"); simpl; [|done].
  destruct (model_metadata s !! "accuracy"); simpl; done.
Qed.

(** C7, as stated, fails when the disk is full: the same valid three-row
    upload that is answered 200 when storing works leaves the body of the
    handler by an exception, is answered 500 "Server error: ..." and is never
    parsed; what it leaves behind is an empty file at the upload path. *)
Lemma upload_store_failure_counterexample :
  passes_checks Sample.req_3x2 Sample.file_3x2 ∧
  status <$> (match (predict Sample.env Sample.req_3x2 Sample.started).1 with
              | Ok resp => Some resp
              | Raise _ => None
              end) = Some 200%nat ∧
  (predict_body Sample.env_disk_full Sample.req_3x2 Sample.started).1 =
    Raise (Exn "OSError" "[Errno 28] No space left on device") ∧
  (predict Sample.env_disk_full Sample.req_3x2 Sample.started).1 =
    Ok (jsonify_code
          (error_body "Server error: [Errno 28] No space left on device") 500) ∧
  io_log (predict Sample.env_disk_full Sample.req_3x2 Sample.started).2
    = io_log Sample.started ∧
  fs (predict Sample.env_disk_full Sample.req_3x2 Sample.started).2
     !! upload_path Sample.env_disk_full
    = Some {| content := ""; mtime := Sample.noon |}.
Proof.
  assert (Hbody : predict_body Sample.env_disk_full Sample.req_3x2 Sample.started =
                  (Raise (Exn "OSError" "[Errno 28] No space left on device"),
                   after_refusal Sample.env_disk_full Sample.file_3x2 Sample.started)).
  { rewrite (predict_body_checked _ _ _ _ Sample_checks_3x2).
    unfold mbind, M_bind, bind.
    by rewrite (save_refused Sample.env_disk_full _ _
                  (Exn "OSError" "[Errno 28] No space left on device") eq_refl). }
  split; [apply Sample_checks_3x2|]. split; [vm_compute; reflexivity|].
  split; [by rewrite Hbody|].
  unfold predict, try_except. rewrite Hbody.
  split; [reflexivity|]. split; [reflexivity|].
  simpl. apply lookup_insert_eq.
Qed.

(** C7 (amended): for every upload that passes the presence, filename and
    extension checks, the target is uploads/upload_<YYYYMMDD_HHMMSS>.csv;
    when the write succeeds the raw upload is on disk there and was stored
    before the parse was attempted, whatever parsing and prediction do
    afterwards; when the write fails the request is not parsed and is
    answered 500 "Server error: ..." with success false, no other file is
    touched, and the target is left as it was if it could not be opened, or
    else holds the part of the upload that was written before the failure. *)
Theorem upload_stored_before_parsing env req s file :
  passes_checks req file →
  upload_path env = "uploads/upload_" +:+ Datetime.strftime_compact (now env) +:+ ".csv" ∧
  (write_fault env (upload_path env) = None →
     fs (predict env req s).2 !! upload_path env
       = Some {| content := stream file; mtime := now env |} ∧
     io_log (predict env req s).2
       = (io_log s ++ [EvSave (upload_path env); EvReadCsv (upload_path env)])%list) ∧
  (∀ e, write_fault env (upload_path env) = Some e →
     (predict_body env req s).1 = Raise e ∧
     (predict env req s).1
       = Ok (jsonify_code (error_body ("Server error: " +:+ str_exn e)) 500) ∧
     io_log (predict env req s).2 = io_log s ∧
     delete (upload_path env) (fs (predict env req s).2)
       = delete (upload_path env) (fs s) ∧
     fs (predict env req s).2 !! upload_path env
       = match fault_after env (upload_path env) with
         | None => fs s !! upload_path env
         | Some n =>
             Some {| content := String.substring 0 n (stream file); mtime := now env |}
         end).
Proof.
  intros Hchk. split; [reflexivity|]. split.
  - intros Hw.
    assert (Hafter : fs (after_read env file s) !! upload_path env
                       = Some {| content := stream file; mtime := now env |} ∧
                     io_log (after_read env file s)
                       = (io_log s ++ [EvSave (upload_path env); EvReadCsv (upload_path env)])%list).
    { simpl. rewrite lookup_insert_eq, <- app_assoc. done. }
    unfold predict, try_except.
    rewrite (predict_body_checked _ _ file) by done.
    unfold mbind, M_bind, bind.
    rewrite save_stored, load_dataset_stored by done.
    destruct (csv_parser env (stream file)) as [df|e]; [|exact Hafter].
    destruct (df_empty df); [exact Hafter|].
    match goal with
    | |- context [predict_on env df ?s1] =>
        destruct (predict_on_disk env df s1) as [Hfs Hlog];
        destruct (predict_on env df s1) as [[resp|e] s2]
    end; simpl in *; rewrite Hfs, Hlog; exact Hafter.
  - intros e Hw.
    assert (Hbody : predict_body env req s = (Raise e, after_refusal env file s)).
    { rewrite (predict_body_checked _ _ file) by done.
      unfold mbind, M_bind, bind. by rewrite (save_refused _ _ _ e). }
    split; [by rewrite Hbody|].
    unfold predict, try_except. rewrite Hbody. simpl.
    split; [done|]. unfold after_refusal.
    destruct (fault_after env (upload_path env)) as [n|]; simpl; [|done].
    split; [done|]. split; [apply delete_insert_eq | apply lookup_insert_eq].
Qed.

(** A stored three-row upload, and the same upload on a full disk. *)
Lemma upload_stored_before_parsing_witness :
  fs (predict Sample.env Sample.req_3x2 Sample.started).2
     !! "uploads/upload_20250309_140500.csv"
    = Some {| content := Sample.csv_3x2; mtime := Sample.noon |} ∧
  (predict Sample.env_disk_full Sample.req_3x2 Sample.started).1
    = Ok (jsonify_code
            (error_body "Server error: [Errno 28] No space left on device") 500).
Proof.
  split.
  - destruct (upload_stored_before_parsing Sample.env Sample.req_3x2 Sample.started _
                Sample_checks_3x2) as (_ & Hok & _).
    destruct (Hok eq_refl) as [Hfs _]. exact Hfs.
  - destruct (upload_stored_before_parsing Sample.env_disk_full Sample.req_3x2
                Sample.started _ Sample_checks_3x2) as (_ & _ & Hfail).
    destruct (Hfail _ eq_refl) as (_ & Hresp & _). exact Hresp.
Defined.

Lemma health_check_state env s : (health_check env s).2 = s.
Proof.
  unfold health_check, getitem. munfold.
  destruct (model_metadata s !! "status"); reflexivity.
Qed.

(** C9: after any number of [GET /api/health] calls, at whatever times, the
    state is the one before: the metadata dict, the model, and also the
    disk, the generator and the logs. *)
Theorem health_calls_keep_state envs s : health_calls envs s = s.
Proof.
  unfold health_calls. revert s.
  induction envs as [|env envs IH]; intros s; simpl; [done|].
  by rewrite health_check_state.
Qed.

(** C10: a ".csv" upload without any content, for which the parser raises,
    is answered 400 with a message that starts with "Error reading CSV:" and
    carries the parser's message; it is not the "CSV file is empty" answer. *)
Theorem empty_content_is_parse_error env req s file e :
  files req !! "file" = Some file →
  PyStr.endswith (PyStr.lower (filename file)) ".csv" = true →
  stream file = "" →
  write_fault env (upload_path env) = None →
  csv_parser env "" = Raise e →
  ∃ resp msg,
    (predict env req s).1 = Ok resp ∧
    resp = jsonify_code (error_body msg) 400 ∧
    msg = "Error reading CSV: " +:+ str_exn e ∧
    PyStr.startswith msg "Error reading CSV:" = true ∧
    resp ≠ jsonify_code (error_body "CSV file is empty") 400.
Proof.
  intros Hf Hext Hempty Hw Hparse.
  assert (Hchk : passes_checks req file).
  { split; [done|]. split; [|done].
    intros Hn. rewrite Hn in Hext. discriminate. }
  unfold predict, try_except.
  rewrite (predict_body_checked _ _ file) by done.
  unfold mbind, M_bind, bind.
  rewrite save_stored, load_dataset_stored, Hempty, Hparse by done.
  simpl. eexists _, _. split; [reflexivity|]. split; [reflexivity|].
  split; [reflexivity|]. split; [reflexivity|]. discriminate.
Qed.

Lemma empty_content_is_parse_error_witness :
  ∃ resp msg,
    (predict Sample.env (Sample.upload "blank.csv" "") Sample.started).1 = Ok resp ∧
    resp = jsonify_code (error_body msg) 400 ∧
    msg = "Error reading CSV: " +:+ "No columns to parse from file" ∧
    PyStr.startswith msg "Error reading CSV:" = true ∧
    resp ≠ jsonify_code (error_body "CSV file is empty") 400.
Proof.
  apply (empty_content_is_parse_error Sample.env (Sample.upload "blank.csv" "")
           Sample.started {| filename := "blank.csv"; stream := "" |}
           (Exn "EmptyDataError" "No columns to parse from file")).
  - unfold Sample.upload. simpl. apply lookup_singleton_eq.
  - reflexivity.
  - reflexivity.
  - reflexivity.
  - reflexivity.
Defined.

(** ** Start-up *)

Lemma load_model_metadata_run env s :
  (load_model_metadata env s).1 = Ok tt ∧
  model_metadata (load_model_metadata env s).2
    = persisted_over env (fs s) (model_metadata s) ∧
  ml_model (load_model_metadata env s).2 = ml_model s ∧
  fs (load_model_metadata env s).2 = fs s.
Proof.
  unfold load_model_metadata, metadata_update, persisted_over, os_path_exists,
    read_file. munfold.
  destruct (fs s !! metadata_path) as [f|] eqn:Hf; simpl; [|done].
  rewrite Hf.
  destruct (json_parser env (content f)) as [doc|e]; simpl; [|done].
  destruct (update_from_doc (model_metadata s) doc).2; simpl; done.
Qed.

Lemma MLModel_load_model_ok env path s :
  sklearn_fault env = None →
  MLModel_load_model env path s =
    (Ok true, set_ml_model {| is_trained := true; model := Some mock_classifier |} s).
Proof.
  intros H. unfold MLModel_load_model, MLModel_create_mock_model. rewrite H.
  reflexivity.
Qed.

Lemma MLModel_load_model_fail env path s e :
  sklearn_fault env = Some e →
  MLModel_load_model env path s =
    (Ok false, add_stdout ("Error loading model: " +:+ str_exn e) s).
Proof.
  intros H. unfold MLModel_load_model, MLModel_create_mock_model. rewrite H.
  reflexivity.
Qed.

Lemma initialize_app_artifact_loaded env s art :
  fs s !! model_pkl = Some art →
  sklearn_fault env = None →
  mtime_fault env model_pkl = None →
  initialize_app env s =
    (load_model_metadata env;; print "Application initialized successfully")
      (add_stdout "Model loaded successfully"
         (set_model_metadata
            (<["last_trained" := JStr (Datetime.isoformat (mtime art))]>
               (<["status" := JStr "Model loaded successfully"]> (model_metadata s)))
            (set_ml_model {| is_trained := true; model := Some mock_classifier |}
               (add_stdout "Found existing model, loading..."
                  (add_stdout "Initializing application..." s))))).
Proof.
  intros Hart Hsk Hmt.
  unfold initialize_app, os_path_exists, getmtime, setitem.
  unfold mbind, M_bind, bind, print, modify, get, mret, M_ret, ret. simpl.
  rewrite Hart. rewrite bool_decide_eq_true_2 by eauto.
  rewrite MLModel_load_model_ok by done. simpl.
  rewrite Hart, Hmt. reflexivity.
Qed.

Lemma initialize_app_artifact_stopped env s art e :
  fs s !! model_pkl = Some art →
  sklearn_fault env = None →
  mtime_fault env model_pkl = Some e →
  initialize_app env s =
    (Raise e,
     set_model_metadata
       (<["status" := JStr "Model loaded successfully"]> (model_metadata s))
       (set_ml_model {| is_trained := true; model := Some mock_classifier |}
          (add_stdout "Found existing model, loading..."
             (add_stdout "Initializing application..." s)))).
Proof.
  intros Hart Hsk Hmt.
  unfold initialize_app, os_path_exists, getmtime, setitem.
  unfold mbind, M_bind, bind, print, modify, get, mret, M_ret, ret, raise. simpl.
  rewrite Hart. rewrite bool_decide_eq_true_2 by eauto.
  rewrite MLModel_load_model_ok by done. simpl.
  rewrite Hart, Hmt. reflexivity.
Qed.

Lemma initialize_app_artifact_failed env s art e :
  fs s !! model_pkl = Some art →
  sklearn_fault env = Some e →
  initialize_app env s =
    (load_model_metadata env;; print "Application initialized successfully")
      (add_stdout "Error loading model"
         (set_model_metadata
            (<["status" := JStr "Error loading model"]> (model_metadata s))
            (add_stdout ("Error loading model: " +:+ str_exn e)
               (add_stdout "Found existing model, loading..."
                  (add_stdout "Initializing application..." s))))).
Proof.
  intros Hart Hsk.
  unfold initialize_app, os_path_exists, getmtime, setitem.
  unfold mbind, M_bind, bind, print, modify, get, mret, M_ret, ret. simpl.
  rewrite Hart. rewrite bool_decide_eq_true_2 by eauto.
  rewrite (MLModel_load_model_fail _ _ _ e) by done. reflexivity.
Qed.

Lemma then_print_run (m : M unit) line s :
  (m s).1 = Ok tt →
  (m;; print line) s = (Ok tt, add_stdout line (m s).2).
Proof.
  unfold mbind, M_bind, bind. destruct (m s) as [[[]|e] s']; simpl; [done|].
  discriminate.
Qed.




(** * Further properties of the service *)

(** ** dict.update *)

Lemma dict_update_union (d : gmap string json) kvs :
  dict_update d kvs = list_to_map (reverse kvs) ∪ d.
Proof.
  revert d. induction kvs as [|[k v] kvs IH]; intros d.
  - unfold dict_update. simpl. by rewrite (left_id_L ∅ (∪)).
  - change (dict_update d ((k, v) :: kvs)) with (dict_update (<[k:=v]> d) kvs).
    rewrite IH, reverse_cons, list_to_map_app. simpl.
    rewrite <- (assoc_L (∪)). f_equal.
    rewrite insert_union_singleton_l. f_equal.
Qed.

Lemma list_to_map_assoc (kvs : list (string * json)) k :
  (list_to_map kvs : gmap string json) !! k = assoc k kvs.
Proof.
  induction kvs as [|[k' v] kvs IH]; simpl; [apply lookup_empty|].
  rewrite lookup_insert. destruct (String.eqb_spec k k') as [->|Hne].
  - by rewrite decide_True.
  - by rewrite decide_False.
Qed.

(** X1: [d.update(pairs)] gives every key the value of its last pair in
    [pairs], and leaves the keys that [pairs] does not mention as they
    were. *)
Theorem dict_update_last_wins (d : gmap string json) kvs k :
  dict_update d kvs !! k =
    match assoc k (reverse kvs) with
    | Some v => Some v
    | None => d !! k
    end.
Proof.
  rewrite dict_update_union, lookup_union, list_to_map_assoc.
  destruct (assoc k (reverse kvs)); simpl; [by destruct (d !! k)|].
  by destruct (d !! k).
Qed.

Lemma dict_update_keeps_key (d : gmap string json) kvs k :
  is_Some (d !! k) → is_Some (dict_update d kvs !! k).
Proof.
  intros [v Hv]. rewrite dict_update_union, lookup_union.
  destruct (list_to_map (reverse kvs) !! k); rewrite Hv; simpl; eauto.
Qed.

Lemma dict_update_dom (d : gmap string json) kvs :
  dom d ⊆ dom (dict_update d kvs).
Proof. intros k. rewrite !elem_of_dom. apply dict_update_keeps_key. Qed.

Lemma update_items_dom (d : gmap string json) i items :
  dom d ⊆ dom (update_items d i items).1.
Proof.
  revert d i. induction items as [|item items IH]; intros d i; simpl; [done|].
  destruct (update_item_of i item) as [k v| |e]; simpl; [|apply IH|done].
  etrans; [|apply IH]. rewrite dom_insert_L. set_solver.
Qed.

Lemma update_from_doc_dom (d : gmap string json) doc :
  dom d ⊆ dom (update_from_doc d doc).1.
Proof.
  unfold update_from_doc.
  destruct doc; simpl; try done; try apply update_items_dom.
  apply dict_update_dom.
Qed.

Lemma dict_update_own_items (d : gmap string json) :
  dict_update d (map_to_list d) = d.
Proof.
  rewrite dict_update_union.
  rewrite (list_to_map_proper (reverse (map_to_list d)) (map_to_list d)).
  - rewrite list_to_map_to_list. apply (idemp_L (∪)).
  - rewrite fmap_reverse, reverse_Permutation. apply NoDup_fst_map_to_list.
  - apply reverse_Permutation.
Qed.

(** An array is merged pair by pair up to its first element that is not a
    pair. *)
Example update_from_pairs_record :
  (update_from_doc model_metadata_init Demo.pairs_record).1 !! "status"
    = Some (JStr "from the record") ∧
  (update_from_doc model_metadata_init Demo.pairs_record).1 !! "accuracy"
    = Some JNull ∧
  (update_from_doc model_metadata_init Demo.pairs_record).2
    = Some (Exn "TypeError"
              "cannot convert dictionary update sequence element #1 to a sequence").
Proof. repeat split; vm_compute; reflexivity. Qed.

Example update_from_scalars :
  (update_from_doc model_metadata_init (JInt 3)).2
    = Some (Exn "TypeError" "'int' object is not iterable") ∧
  (update_from_doc model_metadata_init (JStr "ab")).2
    = Some (Exn "ValueError"
              "dictionary update sequence element #0 has length 1; 2 is required") ∧
  (update_from_doc model_metadata_init (JArr [JStr "ab"; JArr [JInt 1; JInt 2]])).1
     !! "a" = Some (JStr "b") ∧
  (update_from_doc model_metadata_init (JArr [JStr "ab"; JArr [JInt 1; JInt 2]])).2
    = None.
Proof. repeat split; vm_compute; reflexivity. Qed.

(** ** The metadata record on disk *)

Lemma save_model_metadata_run env s :
  save_model_metadata env s =
    match write_fault env metadata_path with
    | None =>
        (Ok tt, add_event (EvWriteMetadata metadata_path)
                  (set_fs (disk_with_record env (model_metadata s) (fs s)) s))
    | Some e =>
        (Ok tt, add_stdout ("Error saving model metadata: " +:+ str_exn e)
                  (after_record_refusal env s))
    end.
Proof.
  unfold save_model_metadata, write_file, after_record_refusal. munfold.
  destruct (write_fault env metadata_path); [|reflexivity].
  destruct (fault_after env metadata_path); reflexivity.
Qed.

(** X2: [save_model_metadata] never raises and never touches the metadata
    dict, the model or any file other than the record.  When the write
    succeeds the record holds the dump of the whole dict.  When it fails, one
    line is printed and the record is left as it was if it could not be
    opened, or else holds the part of the dump that was written before the
    failure. *)
Theorem save_model_metadata_nonfatal env s :
  (save_model_metadata env s).1 = Ok tt ∧
  model_metadata (save_model_metadata env s).2 = model_metadata s ∧
  ml_model (save_model_metadata env s).2 = ml_model s ∧
  delete metadata_path (fs (save_model_metadata env s).2)
    = delete metadata_path (fs s) ∧
  match write_fault env metadata_path with
  | Some e =>
      fs (save_model_metadata env s).2 !! metadata_path
        = match fault_after env metadata_path with
          | None => fs s !! metadata_path
          | Some n =>
              Some {| content :=
                        String.substring 0 n
                          (json_printer env (JObj (map_to_list (model_metadata s))));
                      mtime := now env |}
          end ∧
      stdout (save_model_metadata env s).2
        = (stdout s ++ ["Error saving model metadata: " +:+ str_exn e])%list
  | None =>
      fs (save_model_metadata env s).2 !! metadata_path
        = Some {| content := json_printer env (JObj (map_to_list (model_metadata s)));
                  mtime := now env |} ∧
      stdout (save_model_metadata env s).2 = stdout s
  end.
Proof.
  rewrite save_model_metadata_run.
  destruct (write_fault env metadata_path) as [e|]; simpl.
  - unfold after_record_refusal.
    destruct (fault_after env metadata_path) as [n|]; simpl; [|done].
    repeat split; try done.
    + apply delete_insert_eq.
    + by rewrite lookup_insert_eq.
  - repeat split; try done.
    + unfold disk_with_record. apply delete_insert_eq.
    + unfold disk_with_record. by rewrite lookup_insert_eq.
Qed.

(** X3: [load_model_metadata] never raises and changes neither the model
    nor the disk; it never removes a key from the metadata dict.  When there
    is no record, or the record cannot be parsed, the dict is left as it was
    (and the parse error is printed); a record that parses to an object is
    merged over the dict. *)
Theorem load_model_metadata_safe env s :
  (load_model_metadata env s).1 = Ok tt ∧
  ml_model (load_model_metadata env s).2 = ml_model s ∧
  fs (load_model_metadata env s).2 = fs s ∧
  dom (model_metadata s) ⊆ dom (model_metadata (load_model_metadata env s).2) ∧
  match fs s !! metadata_path with
  | None => model_metadata (load_model_metadata env s).2 = model_metadata s
  | Some f =>
      match json_parser env (content f) with
      | Raise e =>
          model_metadata (load_model_metadata env s).2 = model_metadata s ∧
          stdout (load_model_metadata env s).2
            = (stdout s ++ ["Error loading model metadata: " +:+ str_exn e])%list
      | Ok (JObj kvs) =>
          model_metadata (load_model_metadata env s).2
            = dict_update (model_metadata s) kvs
      | Ok _ => True
      end
  end.
Proof.
  unfold load_model_metadata, metadata_update, os_path_exists, read_file. munfold.
  destruct (fs s !! metadata_path) as [f|] eqn:Hf; simpl; [|done].
  rewrite Hf.
  destruct (json_parser env (content f)) as [doc|e]; simpl; [|done].
  pose proof (update_from_doc_dom (model_metadata s) doc) as Hdom.
  destruct (update_from_doc (model_metadata s) doc) as [d' oe] eqn:Hu.
  simpl in Hdom.
  assert (Hobj : ∀ kvs, doc = JObj kvs →
                        d' = dict_update (model_metadata s) kvs ∧ oe = None).
  { intros kvs ->. simpl in Hu. by injection Hu as <- <-. }
  destruct oe as [e|]; simpl.
  - split; [done|]. split; [done|]. split; [done|]. split; [exact Hdom|].
    destruct doc; try done.
  - split; [done|]. split; [done|]. split; [done|]. split; [exact Hdom|].
    destruct doc; try done. by destruct (Hobj _ eq_refl).
Qed.

Lemma persisted_over_keeps_key env disk (d : gmap string json) k :
  is_Some (d !! k) → is_Some (persisted_over env disk d !! k).
Proof.
  intros Hk. unfold persisted_over.
  destruct (disk !! metadata_path) as [f|]; [|done].
  destruct (json_parser env (content f)) as [doc|e]; [|done].
  apply elem_of_dom, update_from_doc_dom, elem_of_dom, Hk.
Qed.

(** X4: writing the record and reading it back leaves the metadata dict as
    it was, provided the disk takes the write and [json.load] returns the
    document that [json.dump] was given. *)
Theorem save_then_load_roundtrip env s :
  write_fault env metadata_path = None →
  json_parser env (json_printer env (JObj (map_to_list (model_metadata s))))
    = Ok (JObj (map_to_list (model_metadata s))) →
  ((save_model_metadata env;; load_model_metadata env) s).1 = Ok tt ∧
  model_metadata ((save_model_metadata env;; load_model_metadata env) s).2
    = model_metadata s.
Proof.
  intros Hw Hrt. unfold mbind, M_bind, bind.
  rewrite save_model_metadata_run, Hw.
  match goal with
  | |- context [load_model_metadata env ?s1] =>
      destruct (load_model_metadata_run env s1) as (Hok & Hmd & _)
  end.
  split; [exact Hok|]. rewrite Hmd. unfold persisted_over. simpl.
  unfold disk_with_record, metadata_doc. rewrite lookup_insert_eq. simpl.
  rewrite Hrt. apply dict_update_own_items.
Qed.

Lemma save_then_load_roundtrip_witness :
  ((save_model_metadata Demo.env_codec;; load_model_metadata Demo.env_codec)
     Sample.started).1 = Ok tt ∧
  model_metadata
    ((save_model_metadata Demo.env_codec;; load_model_metadata Demo.env_codec)
       Sample.started).2
    = model_metadata Sample.started.
Proof.
  apply (save_then_load_roundtrip Demo.env_codec Sample.started).
  - reflexivity.
  - vm_compute. reflexivity.
Defined.

(** ** Start-up, every branch *)

Lemma initialize_app_mock_loaded env s :
  fs s !! model_pkl = None →
  sklearn_fault env = None →
  initialize_app env s =
    (load_model_metadata env;; print "Application initialized successfully")
      (add_stdout "Mock model created successfully"
         (save_model_metadata env
            (set_model_metadata
               (dict_update (model_metadata s) (mock_descriptor env))
               (set_ml_model {| is_trained := true; model := Some mock_classifier |}
                  (add_stdout "No model found, creating mock model for testing..."
                     (add_stdout "Initializing application..." s))))).2).
Proof.
  intros Hart Hsk.
  unfold initialize_app, os_path_exists.
  unfold mbind, M_bind, bind, print, modify, get, mret, M_ret, ret. simpl.
  rewrite Hart. rewrite bool_decide_eq_false_2 by (intros [? ?]; done).
  rewrite MLModel_load_model_ok by done. simpl.
  match goal with
  | |- context [save_model_metadata env ?s1] =>
      pose proof (save_model_metadata_run env s1) as Hrun;
      destruct (save_model_metadata env s1) as [r s2]
  end.
  destruct (write_fault env metadata_path); injection Hrun as -> ->; reflexivity.
Qed.

Lemma initialize_app_mock_failed env s e :
  fs s !! model_pkl = None →
  sklearn_fault env = Some e →
  initialize_app env s =
    (load_model_metadata env;; print "Application initialized successfully")
      (add_stdout ("Error loading model: " +:+ str_exn e)
         (add_stdout "No model found, creating mock model for testing..."
            (add_stdout "Initializing application..." s))).
Proof.
  intros Hart Hsk.
  unfold initialize_app, os_path_exists.
  unfold mbind, M_bind, bind, print, modify, get, mret, M_ret, ret. simpl.
  rewrite Hart. rewrite bool_decide_eq_false_2 by (intros [? ?]; done).
  rewrite (MLModel_load_model_fail _ _ _ e) by done. reflexivity.
Qed.

(** The ways through [initialize_app]: it reaches its closing
    [load_model_metadata] in some state, or it stops at the conversion of the
    artifact's time. *)
Lemma initialize_app_cases env s :
  ∃ s1,
    dom (model_metadata s) ⊆ dom (model_metadata s1) ∧
    ml_model s1 = match sklearn_fault env with
                  | None => {| is_trained := true; model := Some mock_classifier |}
                  | Some _ => ml_model s
                  end ∧
    (initialize_app env s =
       (load_model_metadata env;; print "Application initialized successfully") s1 ∨
     ∃ e, initialize_app env s = (Raise e, s1)).
Proof.
  destruct (fs s !! model_pkl) as [art|] eqn:Hart;
    destruct (sklearn_fault env) as [e|] eqn:Hsk.
  - eexists. split; [|split; [|left; by apply (initialize_app_artifact_failed env s art e)]];
      [|done]. simpl. rewrite dom_insert_L. set_solver.
  - destruct (mtime_fault env model_pkl) as [e|] eqn:Hmt.
    + eexists. split; [|split; [|right; exists e;
                                 by apply (initialize_app_artifact_stopped env s art e)]];
        [|done]. simpl. rewrite dom_insert_L. set_solver.
    + eexists. split; [|split; [|left; by apply (initialize_app_artifact_loaded env s art)]];
        [|done]. simpl. rewrite !dom_insert_L. set_solver.
  - eexists. split; [|split; [|left; by apply (initialize_app_mock_failed env s e)]]; done.
  - eexists. split; [|split; [|left; by apply initialize_app_mock_loaded]].
    + rewrite save_model_metadata_run.
      destruct (write_fault env metadata_path); [unfold after_record_refusal;
        destruct (fault_after env metadata_path)|];
        cbn [snd model_metadata ml_model add_event add_stdout set_fs
             set_model_metadata set_ml_model];
        apply dict_update_dom.
    + rewrite save_model_metadata_run.
      destruct (write_fault env metadata_path); [unfold after_record_refusal;
        destruct (fault_after env metadata_path)|]; done.
Qed.

Lemma initialize_app_finish env s1 :
  ((load_model_metadata env;; print "Application initialized successfully") s1).1 = Ok tt ∧
  model_metadata
    ((load_model_metadata env;; print "Application initialized successfully") s1).2
    = persisted_over env (fs s1) (model_metadata s1) ∧
  ml_model ((load_model_metadata env;; print "Application initialized successfully") s1).2
    = ml_model s1 ∧
  fs ((load_model_metadata env;; print "Application initialized successfully") s1).2
    = fs s1.
Proof.
  destruct (load_model_metadata_run env s1) as (Hok & Hmd & Hml & Hfs).
  rewrite (then_print_run _ _ s1 Hok). simpl. done.
Qed.

Lemma initialize_app_dom env s :
  dom (model_metadata s) ⊆ dom (model_metadata (initialize_app env s).2).
Proof.
  destruct (initialize_app_cases env s) as (s1 & Hdom & _ & [-> | [e ->]]);
    [|exact Hdom].
  destruct (initialize_app_finish env s1) as (_ & Hmd & _).
  rewrite Hmd. intros k Hk. apply Hdom in Hk. revert Hk.
  rewrite !elem_of_dom. apply persisted_over_keeps_key.
Qed.

Lemma initialize_app_ml_model env s :
  ml_model (initialize_app env s).2
    = match sklearn_fault env with
      | None => {| is_trained := true; model := Some mock_classifier |}
      | Some _ => ml_model s
      end.
Proof.
  destruct (initialize_app_cases env s) as (s1 & _ & Hml & [-> | [e ->]]);
    [|exact Hml].
  destruct (initialize_app_finish env s1) as (_ & _ & Hml1 & _).
  by rewrite Hml1.
Qed.

(** X5: [initialize_app] raises in one case only: a model artifact is
    there, building the mock classifier worked, and the time of the artifact
    file cannot be converted; then it ends with that exception.  In every
    other case it finishes, whatever is on disk and whatever the libraries
    do.  It never removes a key from the metadata dict, and afterwards the
    predictor is ready exactly when building the mock classifier worked or
    the predictor was ready before. *)
Theorem initialize_app_outcome env s :
  (initialize_app env s).1
    = match fs s !! model_pkl, sklearn_fault env, mtime_fault env model_pkl with
      | Some _, None, Some e => Raise e
      | _, _, _ => Ok tt
      end ∧
  dom (model_metadata s) ⊆ dom (model_metadata (initialize_app env s).2) ∧
  predictor_ready (initialize_app env s).2
    = match sklearn_fault env with
      | None => true
      | Some _ => predictor_ready s
      end.
Proof.
  split; [|split; [apply initialize_app_dom|]].
  - destruct (fs s !! model_pkl) as [art|] eqn:Hart;
      destruct (sklearn_fault env) as [e|] eqn:Hsk.
    + rewrite (initialize_app_artifact_failed env s art e) by done.
      by destruct (mtime_fault env model_pkl); apply initialize_app_finish.
    + destruct (mtime_fault env model_pkl) as [e|] eqn:Hmt.
      * by rewrite (initialize_app_artifact_stopped env s art e).
      * rewrite (initialize_app_artifact_loaded env s art) by done.
        apply initialize_app_finish.
    + rewrite (initialize_app_mock_failed env s e) by done.
      apply initialize_app_finish.
    + rewrite initialize_app_mock_loaded by done. apply initialize_app_finish.
  - unfold predictor_ready. rewrite initialize_app_ml_model.
    by destruct (sklearn_fault env).
Qed.

(** Start-up stops at an artifact whose time cannot be converted: the
    status is set, [last_trained] is not. *)
Example startup_stops_at_bad_time :
  (initialize_app Demo.env_bad_time (module_loaded Sample.disk_a)).1
    = Raise (Exn "ValueError" "year 292277026596 is out of range") ∧
  model_metadata (initialize_app Demo.env_bad_time (module_loaded Sample.disk_a)).2
    !! "status" = Some (JStr "Model loaded successfully") ∧
  model_metadata (initialize_app Demo.env_bad_time (module_loaded Sample.disk_a)).2
    !! "last_trained" = Some JNull.
Proof. repeat split; vm_compute; reflexivity. Qed.

(** X6: start-up without a model artifact, when building the mock works and
    the disk takes the write: the predictor is the mock classifier, the
    record on disk is the dump of the defaults updated with the mock
    descriptor, and, if [json.load] gives that document back or fails on it,
    the metadata dict is exactly the old dict updated with the mock
    descriptor. *)
Theorem startup_installs_mock env s :
  fs s !! model_pkl = None →
  sklearn_fault env = None →
  write_fault env metadata_path = None →
  (json_parser env (json_printer env
       (metadata_doc (dict_update (model_metadata s) (mock_descriptor env))))
     = Ok (metadata_doc (dict_update (model_metadata s) (mock_descriptor env))) ∨
   ∃ e, json_parser env (json_printer env
       (metadata_doc (dict_update (model_metadata s) (mock_descriptor env))))
     = Raise e) →
  ml_model (initialize_app env s).2
    = {| is_trained := true; model := Some mock_classifier |} ∧
  fs (initialize_app env s).2
    = disk_with_record env (dict_update (model_metadata s) (mock_descriptor env)) (fs s) ∧
  model_metadata (initialize_app env s).2
    = dict_update (model_metadata s) (mock_descriptor env) ∧
  model_metadata (initialize_app env s).2 !! "model_type"
    = Some (JStr "Random Forest (Mock)") ∧
  model_metadata (initialize_app env s).2 !! "accuracy" = Some (JFloat 0.85) ∧
  model_metadata (initialize_app env s).2 !! "status"
    = Some (JStr "Mock model loaded for testing").
Proof.
  intros Hart Hsk Hw Hcodec.
  rewrite initialize_app_mock_loaded by done.
  rewrite save_model_metadata_run, Hw.
  match goal with
  | |- context [(load_model_metadata env;; _) ?s1] =>
      destruct (initialize_app_finish env s1) as (_ & Hmd & Hml & Hfs)
  end.
  rewrite Hmd, Hml, Hfs.
  cbn [snd fs model_metadata ml_model add_event add_stdout set_fs
       set_model_metadata set_ml_model].
  assert (Hp : persisted_over env
                 (disk_with_record env
                    (dict_update (model_metadata s) (mock_descriptor env)) (fs s))
                 (dict_update (model_metadata s) (mock_descriptor env))
               = dict_update (model_metadata s) (mock_descriptor env)).
  { unfold persisted_over, disk_with_record. rewrite lookup_insert_eq.
    cbn [content].
    destruct Hcodec as [-> | [e ->]]; [|done].
    unfold metadata_doc. apply dict_update_own_items. }
  rewrite Hp. split; [done|]. split; [done|]. split; [done|].
  unfold dict_update, mock_descriptor. simpl.
  repeat split; by simplify_map_eq.
Qed.

Lemma startup_installs_mock_witness :
  ml_model (initialize_app Sample.env (module_loaded ∅)).2
    = {| is_trained := true; model := Some mock_classifier |} ∧
  fs (initialize_app Sample.env (module_loaded ∅)).2
    = disk_with_record Sample.env
        (dict_update model_metadata_init (mock_descriptor Sample.env)) ∅ ∧
  model_metadata (initialize_app Sample.env (module_loaded ∅)).2
    = dict_update model_metadata_init (mock_descriptor Sample.env) ∧
  model_metadata (initialize_app Sample.env (module_loaded ∅)).2 !! "model_type"
    = Some (JStr "Random Forest (Mock)") ∧
  model_metadata (initialize_app Sample.env (module_loaded ∅)).2 !! "accuracy"
    = Some (JFloat 0.85) ∧
  model_metadata (initialize_app Sample.env (module_loaded ∅)).2 !! "status"
    = Some (JStr "Mock model loaded for testing").
Proof.
  apply (startup_installs_mock Sample.env (module_loaded ∅)).
  - apply lookup_empty.
  - reflexivity.
  - reflexivity.
  - right. eexists. reflexivity.
Defined.



(** X8: when start-up with a model artifact finishes, a value that the
    persisted metadata record holds for "status" has replaced the status
    that [initialize_app] set for the load. *)
Theorem startup_record_overrides_status env s art f kvs v :
  fs s !! model_pkl = Some art →
  fs s !! metadata_path = Some f →
  json_parser env (content f) = Ok (JObj kvs) →
  assoc "status" (reverse kvs) = Some v →
  (initialize_app env s).1 = Ok tt →
  model_metadata (initialize_app env s).2 !! "status" = Some v.
Proof.
  intros Hart Hrec Hparse Hv.
  assert (Hfin : ∀ s1, fs s1 = fs s →
            model_metadata
              ((load_model_metadata env;; print "Application initialized successfully") s1).2
              !! "status" = Some v).
  { intros s1 Hfs1.
    destruct (initialize_app_finish env s1) as (_ & Hmd & _).
    rewrite Hmd. unfold persisted_over. rewrite Hfs1, Hrec, Hparse. simpl.
    rewrite dict_update_union, lookup_union, list_to_map_assoc, Hv.
    by destruct (model_metadata s1 !! "status"). }
  destruct (sklearn_fault env) as [e|] eqn:Hsk.
  - rewrite (initialize_app_artifact_failed env s art e) by done.
    intros _. by apply Hfin.
  - destruct (mtime_fault env model_pkl) as [e|] eqn:Hmt.
    + rewrite (initialize_app_artifact_stopped env s art e) by done. done.
    + rewrite (initialize_app_artifact_loaded env s art) by done.
      intros _. by apply Hfin.
Qed.

Lemma startup_record_overrides_status_witness :
  model_metadata (initialize_app Demo.env_stale (module_loaded Demo.disk_stale)).2
    !! "status" = Some (JStr "Mock model loaded for testing").
Proof.
  apply (startup_record_overrides_status Demo.env_stale (module_loaded Demo.disk_stale)
           Sample.artifact_a {| content := "{}"; mtime := Sample.new_year |}
           Demo.stale_record).
  - vm_compute. reflexivity.
  - vm_compute. reflexivity.
  - reflexivity.
  - reflexivity.
  - vm_compute. reflexivity.
Defined.

(** ** The routes together *)

Lemma preserves_health_check env : preserves (health_check env).
Proof. unfold health_check. repeat frame_step. Qed.

Lemma preserves_get_model_info : preserves get_model_info.
Proof. unfold get_model_info. repeat frame_step. Qed.

Lemma preserves_dispatch env r : preserves (dispatch env r).
Proof.
  destruct r; simpl.
  - apply preserves_health_check.
  - apply preserves_get_model_info.
  - apply preserves_predict.
  - unfold upload_model. frame_step.
  - unfold index. frame_step.
Qed.

Lemma get_model_info_run s mt acc lt ft st :
  model_metadata s !! "model_type" = Some mt →
  model_metadata s !! "accuracy" = Some acc →
  model_metadata s !! "last_trained" = Some lt →
  model_metadata s !! "features" = Some ft →
  model_metadata s !! "status" = Some st →
  get_model_info s =
    (Ok (jsonify (JObj [("success", JBool true); ("model_type", mt); ("accuracy", acc);
                        ("last_trained", lt); ("features", ft); ("status", st)])), s).
Proof.
  intros H1 H2 H3 H4 H5. unfold get_model_info, getitem. munfold.
  by rewrite H1, H2, H3, H4, H5.
Qed.

Lemma has_default_keys_lookups d :
  has_default_keys d →
  ∃ mt acc lt ft st,
    d !! "model_type" = Some mt ∧ d !! "accuracy" = Some acc ∧
    d !! "last_trained" = Some lt ∧ d !! "features" = Some ft ∧
    d !! "status" = Some st.
Proof.
  unfold has_default_keys, default_keys. rewrite !Forall_cons.
  intros ([mt ?] & [acc ?] & [lt ?] & [ft ?] & [st ?] & _).
  by exists mt, acc, lt, ft, st.
Qed.

Lemma predict_answers env req s : ∃ resp, (predict env req s).1 = Ok resp.
Proof.
  unfold predict, try_except.
  destruct (predict_body env req s) as [[resp|e] s']; simpl; eauto.
Qed.

Lemma dispatch_answers env r s :
  has_default_keys (model_metadata s) → ∃ resp, (dispatch env r s).1 = Ok resp.
Proof.
  intros Hk.
  destruct (has_default_keys_lookups _ Hk)
    as (mt & acc & lt & ft & st & Hmt & Hacc & Hlt & Hft & Hst).
  destruct r; simpl.
  - unfold health_check. munfold. rewrite (getitem_Some _ _ st) by done. eauto.
  - rewrite (get_model_info_run s mt acc lt ft st) by done. eauto.
  - apply predict_answers.
  - unfold upload_model. eauto.
  - unfold index. eauto.
Qed.

Lemma serve_answers calls s :
  has_default_keys (model_metadata s) →
  Forall (fun r => ∃ resp, r = Ok resp) (serve calls s).1.
Proof.
  revert s. induction calls as [|[env r] calls IH]; intros s Hk; simpl; [constructor|].
  constructor.
  - by apply dispatch_answers.
  - apply IH. destruct (preserves_dispatch env r s) as (-> & _). exact Hk.
Qed.

Lemma model_metadata_init_keys : has_default_keys model_metadata_init.
Proof.
  unfold has_default_keys, default_keys, model_metadata_init.
  repeat constructor; simplify_map_eq; eauto.
Qed.

Lemma initialize_app_keeps_keys env s :
  has_default_keys (model_metadata s) →
  has_default_keys (model_metadata (initialize_app env s).2).
Proof.
  unfold has_default_keys. intros Hk.
  eapply Forall_impl; [exact Hk|]. intros k Hs. simpl in Hs.
  apply elem_of_dom, (initialize_app_dom env s), elem_of_dom, Hs.
Qed.

(** X9: however many requests are served, on whatever routes and in
    whatever order, the metadata dict, the model and the persisted metadata
    record stay as they were: after start-up no route changes them.  Every
    request gets one entry in the list of answers. *)
Theorem serve_keeps_model_state calls s :
  model_metadata (serve calls s).2 = model_metadata s ∧
  ml_model (serve calls s).2 = ml_model s ∧
  fs (serve calls s).2 !! metadata_path = fs s !! metadata_path ∧
  length (serve calls s).1 = length calls.
Proof.
  revert s. induction calls as [|[env r] calls IH]; intros s; simpl; [done|].
  destruct (preserves_dispatch env r s) as (Hmd & Hml & Hfs).
  destruct (IH (dispatch env r s).2) as (Hmd' & Hml' & Hfs' & Hlen).
  rewrite Hmd', Hml', Hfs', Hlen. done.
Qed.

(** X10: after [initialize_app] has run on a freshly imported module,
    whatever is on disk and whatever the libraries do, every request on every
    route is answered by its view function: no view ever raises (no
    [KeyError] on the metadata, no escaping error in [predict]). *)
Theorem serve_after_startup_answers env0 disk calls :
  Forall (fun r => ∃ resp, r = Ok resp)
         (serve calls (initialize_app env0 (module_loaded disk)).2).1.
Proof.
  apply serve_answers, initialize_app_keeps_keys. simpl.
  apply model_metadata_init_keys.
Qed.

(** ** More on [predict] *)

Lemma predict_on_key_missing env df s :
  predictor_ready s = true →
  model_metadata s !! "model_type" = None ∨ model_metadata s !! "accuracy" = None →
  ∃ k, (predict_on env df s).1 = Raise (Exn "KeyError" ("'" +:+ k +:+ "'")).
Proof.
  intros Hr Hmiss.
  unfold predict_on, mbind, M_bind, bind.
  rewrite MLModel_predict_ready by done. simpl. munfold. unfold getitem. simpl.
  destruct (model_metadata s !! "model_type"); simpl; [|by eexists].
  destruct Hmiss as [Hm|Hm]; [done|]. rewrite Hm. simpl. by eexists.
Qed.

Lemma envelope_error msg code :
  code = 400%nat ∨ code = 500%nat → envelope (jsonify_code (error_body msg) code).
Proof. intros Hc. right. split; [exact Hc|]. split; [done|]. by exists msg. Qed.

(** X11: every answer of [POST /api/predict] is one of two envelopes: a 200
    with success true and no error field, or a 400 or 500 with success false
    and an error message.  No other status code is produced. *)
Theorem predict_envelope env req s :
  ∃ resp, (predict env req s).1 = Ok resp ∧ envelope resp.
Proof.
  unfold predict, try_except.
  destruct (files req !! "file") as [file|] eqn:Hf; cycle 1.
  { unfold predict_body. rewrite Hf. simpl. eexists. split; [done|].
    apply envelope_error. by left. }
  destruct (String.eqb (filename file) "") eqn:Hname.
  { unfold predict_body. rewrite Hf, Hname. simpl. eexists. split; [done|].
    apply envelope_error. by left. }
  destruct (PyStr.endswith (PyStr.lower (filename file)) ".csv") eqn:Hext; cycle 1.
  { unfold predict_body. rewrite Hf, Hname, Hext. simpl. eexists. split; [done|].
    apply envelope_error. by left. }
  assert (Hchk : passes_checks req file).
  { split; [done|]. split; [|done]. by apply String.eqb_neq. }
  rewrite (predict_body_checked _ _ file) by done.
  unfold mbind, M_bind, bind.
  destruct (write_fault env (upload_path env)) as [e|] eqn:Hw.
  { rewrite (save_refused _ _ _ e) by done. simpl. eexists. split; [done|].
    apply envelope_error. by right. }
  rewrite save_stored, load_dataset_stored by done.
  destruct (csv_parser env (stream file)) as [df|e].
  2:{ simpl. eexists. split; [done|]. apply envelope_error. by left. }
  destruct (df_empty df).
  { simpl. eexists. split; [done|]. apply envelope_error. by left. }
  match goal with |- context [predict_on env df ?s1] => set (s2 := s1) end.
  destruct (predictor_ready s2) eqn:Hr.
  2:{ rewrite predict_on_not_ready by done. simpl. eexists. split; [done|].
      apply envelope_error. by right. }
  destruct (model_metadata s2 !! "model_type") as [mt|] eqn:Hmt.
  2:{ destruct (predict_on_key_missing env df s2 Hr (or_introl Hmt)) as [k Hk].
      destruct (predict_on env df s2) as [r s3]. simpl in Hk. subst r. simpl.
      eexists. split; [done|]. apply envelope_error. by right. }
  destruct (model_metadata s2 !! "accuracy") as [acc|] eqn:Hacc.
  2:{ destruct (predict_on_key_missing env df s2 Hr (or_intror Hacc)) as [k Hk].
      destruct (predict_on env df s2) as [r s3]. simpl in Hk. subst r. simpl.
      eexists. split; [done|]. apply envelope_error. by right. }
  rewrite (predict_on_ready env df s2 mt acc) by done. simpl.
  eexists. split; [done|]. left. done.
Qed.

(** X12: an upload that passes the checks and is stored, but for which
    [pd.read_csv] raises, is answered 400 with "Error reading CSV: " followed
    by the parser's message; the stored copy stays on disk and no random
    number is drawn. *)
Theorem unparsable_upload_rejected env req s file e :
  passes_checks req file →
  write_fault env (upload_path env) = None →
  csv_parser env (stream file) = Raise e →
  (predict env req s).1
    = Ok (jsonify_code (error_body ("Error reading CSV: " +:+ str_exn e)) 400) ∧
  fs (predict env req s).2 !! upload_path env
    = Some {| content := stream file; mtime := now env |} ∧
  rng_pos (predict env req s).2 = rng_pos s.
Proof.
  intros Hchk Hw Hparse.
  unfold predict, try_except.
  rewrite (predict_body_checked _ _ file) by done.
  unfold mbind, M_bind, bind.
  rewrite save_stored, load_dataset_stored, Hparse by done.
  simpl. rewrite lookup_insert_eq. done.
Qed.

Lemma unparsable_upload_rejected_witness :
  (predict Sample.env (Sample.upload "blank.csv" "") Sample.started).1
    = Ok (jsonify_code
            (error_body ("Error reading CSV: " +:+ "No columns to parse from file")) 400) ∧
  fs (predict Sample.env (Sample.upload "blank.csv" "") Sample.started).2
     !! upload_path Sample.env
    = Some {| content := ""; mtime := Sample.noon |} ∧
  rng_pos (predict Sample.env (Sample.upload "blank.csv" "") Sample.started).2
    = rng_pos Sample.started.
Proof.
  apply (unparsable_upload_rejected Sample.env (Sample.upload "blank.csv" "")
           Sample.started {| filename := "blank.csv"; stream := "" |}
           (Exn "EmptyDataError" "No columns to parse from file")).
  - split; [|split; [discriminate|reflexivity]].
    unfold Sample.upload. simpl. apply lookup_singleton_eq.
  - reflexivity.
  - reflexivity.
Defined.

(** X13: in a successful answer the summary reports the metadata's
    [model_type] and [accuracy] entries as they are when the request is
    served, and every prediction entry carries a label from the three
    classes and a confidence between 0.7 and 0.95. *)
Theorem predict_success_content env req s df mt acc :
  upload_loads env req df →
  df_empty df = false →
  predictor_ready s = true →
  model_metadata s !! "model_type" = Some mt →
  model_metadata s !! "accuracy" = Some acc →
  ∃ results,
    (predict env req s).1 =
      Ok (jsonify (JObj [("success", JBool true);
                         ("predictions", JArr results);
                         ("summary", JObj [("total_samples", JInt (Z.of_nat (df_len df)));
                                           ("model_used", mt);
                                           ("accuracy", acc)])])) ∧
    Forall (fun entry =>
              ∃ label c,
                jfield "prediction" entry = Some (JStr label) ∧
                label ∈ ["Class A"; "Class B"; "Class C"] ∧
                jfield "confidence" entry = Some (JFloat c) ∧
                (0.7 <= c)%Q ∧ (c <= 0.95)%Q) results.
Proof.
  intros (file & Hchk & Hw & Hparse) Hne Hready Hmt Hacc.
  unfold predict, try_except.
  rewrite (predict_body_checked _ _ file) by done.
  unfold mbind, M_bind, bind.
  rewrite save_stored, load_dataset_stored, Hparse, Hne by done.
  erewrite predict_on_ready; [|done..].
  simpl. eexists. split; [reflexivity|].
  apply Forall_forall. intros entry Hin.
  apply list_elem_of_lookup in Hin as [i Hi].
  unfold format_predictions in Hi. rewrite list_lookup_imap in Hi.
  destruct (zip _ _ !! i) as [[label oc]|] eqn:Hz; simpl in Hi; [|done].
  injection Hi as <-.
  apply lookup_zip_with_Some in Hz as (label' & oc' & Heq & Hl & Hc).
  injection Heq as <- <-.
  rewrite list_lookup_fmap in Hc.
  destruct (_ !! i) as [c|] eqn:Hc' in Hc; simpl in Hc; [|done].
  injection Hc as <-.
  apply list_elem_of_lookup_2 in Hl. apply list_elem_of_lookup_2 in Hc'.
  apply list_elem_of_fmap in Hl as (raw1 & -> & _).
  apply list_elem_of_fmap in Hc' as (raw2 & -> & _).
  exists (Numpy.choice1 stub_labels raw1), (Numpy.uniform1 0.7 0.95 raw2).
  split; [done|]. split; [by apply (choice1_elem stub_labels)|].
  split; [done|]. apply uniform1_range. by compute.
Qed.

Lemma predict_success_content_witness :
  ∃ results,
    (predict Sample.env Sample.req_3x2 Sample.started).1 =
      Ok (jsonify (JObj [("success", JBool true);
                         ("predictions", JArr results);
                         ("summary", JObj [("total_samples", JInt 3);
                                           ("model_used", JStr "Random Forest (Mock)");
                                           ("accuracy", JFloat 0.85)])])) ∧
    Forall (fun entry =>
              ∃ label c,
                jfield "prediction" entry = Some (JStr label) ∧
                label ∈ ["Class A"; "Class B"; "Class C"] ∧
                jfield "confidence" entry = Some (JFloat c) ∧
                (0.7 <= c)%Q ∧ (c <= 0.95)%Q) results.
Proof.
  apply (predict_success_content Sample.env Sample.req_3x2 Sample.started Sample.df_3x2
           (JStr "Random Forest (Mock)") (JFloat 0.85)).
  - apply Sample_loads_3x2.
  - reflexivity.
  - reflexivity.
  - vm_compute. reflexivity.
  - vm_compute. reflexivity.
Defined.

(** ** The extension check *)

Lemma string_length_app p s :
  String.length (p +:+ s) = (String.length p + String.length s)%nat.
Proof. induction p as [|c p IH]; simpl; [done|]. by rewrite IH. Qed.

Lemma substring_0_all s : String.substring 0 (String.length s) s = s.
Proof. induction s as [|c s IH]; simpl; [done|]. by rewrite IH. Qed.

Lemma substring_skip p s m :
  String.substring (String.length p) m (p +:+ s) = String.substring 0 m s.
Proof. induction p as [|c p IH]; simpl; done. Qed.

Lemma substring_split s k :
  (k ≤ String.length s)%nat →
  s = String.substring 0 k s +:+ String.substring k (String.length s - k) s.
Proof.
  revert k. induction s as [|c s IH]; intros k Hk; simpl in *.
  - destruct k; [done|lia].
  - destruct k as [|k]; simpl.
    + by rewrite substring_0_all.
    + change (String c s
              = String c (String.substring 0 k s
                          +:+ String.substring k (String.length s - k) s)).
      f_equal. apply IH. lia.
Qed.

Lemma substring_length s k m :
  (k + m ≤ String.length s)%nat → String.length (String.substring k m s) = m.
Proof.
  revert k m. induction s as [|c s IH]; intros k m Hk; simpl in *.
  - destruct k, m; simpl; lia.
  - destruct k as [|k]; simpl.
    + destruct m as [|m]; simpl; [done|]. f_equal. apply IH. lia.
    + apply IH. lia.
Qed.

Lemma string_app_inj a1 b1 a2 b2 :
  a1 +:+ b1 = a2 +:+ b2 → String.length a1 = String.length a2 →
  a1 = a2 ∧ b1 = b2.
Proof.
  revert a2. induction a1 as [|c a1 IH]; intros [|c2 a2] Heq Hlen; simpl in *;
    try done.
  injection Heq as -> Heq. destruct (IH a2 Heq) as [-> ->]; [lia|done].
Qed.

Lemma lower_app a b : PyStr.lower (a +:+ b) = PyStr.lower a +:+ PyStr.lower b.
Proof. induction a as [|c a IH]; simpl; [done|]. by rewrite IH. Qed.

Lemma lower_length s : String.length (PyStr.lower s) = String.length s.
Proof. induction s as [|c s IH]; simpl; [done|]. by rewrite IH. Qed.

Lemma endswith_iff s suffix :
  PyStr.endswith s suffix = true ↔ ∃ p, s = p +:+ suffix.
Proof.
  unfold PyStr.endswith. split.
  - destruct (Nat.leb_spec (String.length suffix) (String.length s)) as [Hle|]; [|done].
    intros Heq%String.eqb_eq.
    exists (String.substring 0 (String.length s - String.length suffix) s).
    pose proof (substring_split s (String.length s - String.length suffix)
                  ltac:(lia)) as Hs.
    replace (String.length s - (String.length s - String.length suffix))%nat
      with (String.length suffix) in Hs by lia.
    rewrite Heq in Hs. exact Hs.
  - intros [p ->]. rewrite string_length_app.
    destruct (Nat.leb_spec (String.length suffix)
                (String.length p + String.length suffix)) as [_|]; [|lia].
    replace (String.length p + String.length suffix - String.length suffix)%nat
      with (String.length p) by lia.
    rewrite substring_skip, substring_0_all. apply String.eqb_refl.
Qed.

(** X14: the extension check of [predict] accepts exactly the filenames
    that consist of some stem followed by four characters that read ".csv"
    when letter case is ignored. *)
Theorem csv_extension_check name :
  PyStr.endswith (PyStr.lower name) ".csv" = true ↔
  ∃ stem ext, name = stem +:+ ext ∧ PyStr.lower ext = ".csv".
Proof.
  rewrite endswith_iff. split.
  - intros [p Hp].
    assert (Hlen : (4 ≤ String.length name)%nat).
    { rewrite <- lower_length, Hp, string_length_app. simpl. lia. }
    pose proof (substring_split name (String.length name - 4) ltac:(lia)) as Hsplit.
    replace (String.length name - (String.length name - 4))%nat with 4%nat
      in Hsplit by lia.
    eexists _, _. split; [exact Hsplit|].
    rewrite Hsplit, lower_app in Hp.
    apply string_app_inj in Hp as [_ Hp]; [done|].
    apply (f_equal String.length) in Hp.
    rewrite !string_length_app, !lower_length in Hp.
    rewrite lower_length.
    rewrite (substring_length name (String.length name - 4) 4) in Hp by lia.
    simpl in Hp. lia.
  - intros (stem & ext & -> & Hext). exists (PyStr.lower stem).
    by rewrite lower_app, Hext.
Qed.

Lemma csv_extension_check_witness :
  PyStr.endswith (PyStr.lower "Report.CSV") ".csv" = true.
Proof.
  apply (csv_extension_check "Report.CSV").
  exists "Report", ".CSV". split; reflexivity.
Defined.

(** ** Model information *)

(** X15: [GET /api/model-info] never changes the state.  It answers when
    the metadata dict has its five keys, and then with a 200 whose fields are
    the dict's current values; when a key is missing it raises a
    [KeyError]. *)
Theorem get_model_info_reports s :
  (get_model_info s).2 = s ∧
  match (get_model_info s).1 with
  | Ok resp =>
      has_default_keys (model_metadata s) ∧
      status resp = 200%nat ∧
      jfield "success" (body resp) = Some (JBool true) ∧
      jfield "model_type" (body resp) = model_metadata s !! "model_type" ∧
      jfield "accuracy" (body resp) = model_metadata s !! "accuracy" ∧
      jfield "last_trained" (body resp) = model_metadata s !! "last_trained" ∧
      jfield "features" (body resp) = model_metadata s !! "features" ∧
      jfield "status" (body resp) = model_metadata s !! "status"
  | Raise e => exn_class e = "KeyError" ∧ ¬ has_default_keys (model_metadata s)
  end.
Proof.
  assert (Hno : ∀ k, k ∈ default_keys → model_metadata s !! k = None →
                     ¬ has_default_keys (model_metadata s)).
  { intros k Hin Hnone Hk. unfold has_default_keys in Hk.
    rewrite Forall_forall in Hk. destruct (Hk k Hin) as [v Hv]. congruence. }
  unfold get_model_info, getitem. munfold.
  destruct (model_metadata s !! "model_type") as [mt|] eqn:H1; simpl.
  2:{ split; [done|]. split; [done|]. apply (Hno "model_type"); [|done].
      unfold default_keys. set_solver. }
  destruct (model_metadata s !! "accuracy") as [acc|] eqn:H2; simpl.
  2:{ split; [done|]. split; [done|]. apply (Hno "accuracy"); [|done].
      unfold default_keys. set_solver. }
  destruct (model_metadata s !! "last_trained") as [lt|] eqn:H3; simpl.
  2:{ split; [done|]. split; [done|]. apply (Hno "last_trained"); [|done].
      unfold default_keys. set_solver. }
  destruct (model_metadata s !! "features") as [ft|] eqn:H4; simpl.
  2:{ split; [done|]. split; [done|]. apply (Hno "features"); [|done].
      unfold default_keys. set_solver. }
  destruct (model_metadata s !! "status") as [st|] eqn:H5; simpl.
  2:{ split; [done|]. split; [done|]. apply (Hno "status"); [|done].
      unfold default_keys. set_solver. }
  split; [done|]. split; [|done].
  unfold has_default_keys, default_keys. repeat constructor; eauto.
Qed.

(** ** Where uploads go *)

Lemma predict_stores_upload env req s file :
  passes_checks req file →
  write_fault env (upload_path env) = None →
  fs (predict env req s).2 !! upload_path env
    = Some {| content := stream file; mtime := now env |}.
Proof.
  intros Hchk Hw.
  assert (Hafter : fs (after_read env file s) !! upload_path env
                     = Some {| content := stream file; mtime := now env |}).
  { simpl. by rewrite lookup_insert_eq. }
  unfold predict, try_except.
  rewrite (predict_body_checked _ _ file) by done.
  unfold mbind, M_bind, bind.
  rewrite save_stored, load_dataset_stored by done.
  destruct (csv_parser env (stream file)) as [df|e]; [|exact Hafter].
  destruct (df_empty df); [exact Hafter|].
  match goal with
  | |- context [predict_on env df ?s1] =>
      destruct (predict_on_disk env df s1) as [Hfs _];
      destruct (predict_on env df s1) as [[resp|e] s2]
  end; simpl in *; rewrite Hfs; exact Hafter.
Qed.

(** X16: the upload path is built from the clock down to the second only.
    Two accepted uploads whose clocks agree to the second go to the same
    path, and the file there is the later upload: the earlier one is
    overwritten. *)
Theorem same_second_uploads_collide env1 env2 req1 req2 s file1 file2 :
  year (now env1) = year (now env2) →
  month (now env1) = month (now env2) →
  day (now env1) = day (now env2) →
  hour (now env1) = hour (now env2) →
  minute (now env1) = minute (now env2) →
  second (now env1) = second (now env2) →
  passes_checks req1 file1 →
  passes_checks req2 file2 →
  write_fault env1 (upload_path env1) = None →
  write_fault env2 (upload_path env2) = None →
  upload_path env1 = upload_path env2 ∧
  fs (predict env1 req1 s).2 !! upload_path env1
    = Some {| content := stream file1; mtime := now env1 |} ∧
  fs (predict env2 req2 (predict env1 req1 s).2).2 !! upload_path env1
    = Some {| content := stream file2; mtime := now env2 |}.
Proof.
  intros Hy Hmo Hd Hh Hmi Hs Hchk1 Hchk2 Hw1 Hw2.
  assert (Hpath : upload_path env1 = upload_path env2).
  { unfold upload_path, Datetime.strftime_compact.
    by rewrite Hy, Hmo, Hd, Hh, Hmi, Hs. }
  split; [exact Hpath|]. split.
  - by apply predict_stores_upload.
  - rewrite Hpath. by apply predict_stores_upload.
Qed.

Lemma same_second_uploads_collide_witness :
  upload_path Sample.env = upload_path Demo.env_same_second ∧
  fs (predict Sample.env Sample.req_3x2 Sample.started).2 !! upload_path Sample.env
    = Some {| content := stream Sample.file_3x2; mtime := now Sample.env |} ∧
  fs (predict Demo.env_same_second Demo.req_other
        (predict Sample.env Sample.req_3x2 Sample.started).2).2 !! upload_path Sample.env
    = Some {| content := stream Demo.file_other; mtime := now Demo.env_same_second |}.
Proof.
  apply (same_second_uploads_collide Sample.env Demo.env_same_second
           Sample.req_3x2 Demo.req_other Sample.started
           Sample.file_3x2 Demo.file_other); try reflexivity.
  - apply Sample_checks_3x2.
  - split; [|split; [discriminate|reflexivity]].
    unfold Demo.req_other, Sample.upload. simpl. apply lookup_singleton_eq.
Defined.

(** ** format_predictions and load_model *)

(** X17: [format_predictions] pairs labels and confidences position by
    position and stops at the shorter of the two: entry [i] exists exactly
    when both have a position [i], and then carries id [i + 1], the [i]-th
    label and the [i]-th confidence ([null] for a missing confidence).  The
    table argument is not looked at. *)
Theorem format_predictions_entries df (predictions : list string)
    (confidence : list (option Q)) :
  length (format_predictions df predictions confidence)
    = Nat.min (length predictions) (length confidence) ∧
  ∀ i, format_predictions df predictions confidence !! i =
         match predictions !! i, confidence !! i with
         | Some pred, Some conf =>
             Some (JObj [("id", JInt (Z.of_nat i + 1));
                         ("prediction", JStr pred);
                         ("confidence",
                          match conf with Some c => JFloat c | None => JNull end)])
         | _, _ => None
         end.
Proof.
  unfold format_predictions. split.
  - by rewrite length_imap, length_zip_with.
  - intros i. rewrite list_lookup_imap.
    rewrite lookup_zip_with.
    destruct (predictions !! i) as [pred|]; simpl; [|done].
    destruct (confidence !! i) as [conf|]; simpl; [|done].
    unfold format_entry. simpl. do 5 f_equal. lia.
Qed.

(** X18: [MLModel.load_model] never raises and does not look at its path
    argument.  When building the mock works it returns True and the
    predictor is the mock classifier, marked trained; when it fails it
    returns False, prints the error and leaves the predictor as it was.  The
    metadata dict and the disk are not touched. *)
Theorem load_model_outcome env path s :
  MLModel_load_model env path s = MLModel_load_model env "" s ∧
  model_metadata (MLModel_load_model env path s).2 = model_metadata s ∧
  fs (MLModel_load_model env path s).2 = fs s ∧
  match sklearn_fault env with
  | None =>
      (MLModel_load_model env path s).1 = Ok true ∧
      ml_model (MLModel_load_model env path s).2
        = {| is_trained := true; model := Some mock_classifier |} ∧
      predictor_ready (MLModel_load_model env path s).2 = true
  | Some e =>
      (MLModel_load_model env path s).1 = Ok false ∧
      ml_model (MLModel_load_model env path s).2 = ml_model s ∧
      stdout (MLModel_load_model env path s).2
        = (stdout s ++ ["Error loading model: " +:+ str_exn e])%list
  end.
Proof.
  split; [reflexivity|].
  destruct (sklearn_fault env) as [e|] eqn:Hsk.
  - rewrite (MLModel_load_model_fail env path s e) by done. done.
  - rewrite (MLModel_load_model_ok env path s) by done. done.
Qed.

(** ** From start-up to answers *)

Lemma serve_same_model_state calls s : same_model_state s (serve calls s).2.
Proof.
  revert s. induction calls as [|[env r] calls IH]; intros s; simpl.
  - apply same_model_state_refl.
  - eapply same_model_state_trans; [apply preserves_dispatch | apply IH].
Qed.

Lemma predict_loaded_run env req s df :
  upload_loads env req df →
  df_empty df = false →
  ∃ s1, ml_model s1 = ml_model s ∧ model_metadata s1 = model_metadata s ∧
        (predict env req s).1
          = (try_except (predict_on env df)
               (fun e =>
                  print ("Error in predict endpoint: " +:+ str_exn e);;
                  mret (jsonify_code (error_body ("Server error: " +:+ str_exn e)) 500))
               s1).1.
Proof.
  intros (file & Hchk & Hw & Hparse) Hne.
  eexists. split; [|split]; cycle 2.
  - unfold predict. unfold try_except at 1.
    rewrite (predict_body_checked _ _ file) by done.
    unfold mbind, M_bind, bind.
    rewrite save_stored, load_dataset_stored, Hparse, Hne by done.
    unfold try_except. reflexivity.
  - reflexivity.
  - reflexivity.
Qed.

(** X19: when building the mock classifier worked at start-up, every valid
    non-empty upload with N rows that is stored and parsed, at any later
    time and after any other requests, is answered 200 with N predictions,
    ids 1..N, and [total_samples = N]. *)
Theorem started_service_predicts env0 disk calls env req df :
  sklearn_fault env0 = None →
  upload_loads env req df →
  df_empty df = false →
  answers_rows
    (predict env req (serve calls (initialize_app env0 (module_loaded disk)).2).2).1
    (df_len df).
Proof.
  intros Hsk Hload Hne.
  set (s0 := (initialize_app env0 (module_loaded disk)).2).
  destruct (serve_same_model_state calls s0) as (Hmd & Hml & _).
  destruct (predict_loaded_run env req (serve calls s0).2 df Hload Hne)
    as (s1 & Hml1 & Hmd1 & ->).
  assert (Hkeys : has_default_keys (model_metadata s1)).
  { rewrite Hmd1, Hmd. apply initialize_app_keeps_keys, model_metadata_init_keys. }
  destruct (has_default_keys_lookups _ Hkeys) as (mt & acc & _ & _ & _ & Hmt & Hacc & _).
  assert (Hready : predictor_ready s1 = true).
  { unfold predictor_ready. rewrite Hml1, Hml. unfold s0.
    rewrite initialize_app_ml_model, Hsk. reflexivity. }
  unfold try_except. rewrite (predict_on_ready env df s1 mt acc) by done.
  simpl. eexists _, _, _. split; [reflexivity|]. simpl.
  split; [done|]. split; [done|]. split; [done|].
  split; [|split; [|done]].
  - rewrite format_predictions_length; rewrite !length_map;
      unfold label_draws, confidence_draws; rewrite ?length_map, ?length_seq; done.
  - intros i entry. apply format_predictions_id.
Qed.

Lemma started_service_predicts_witness :
  answers_rows
    (predict Sample.env Sample.req_3x2
       (serve [(Sample.env, Health); (Demo.env_same_second, Predict Demo.req_other)]
          (initialize_app Sample.env (module_loaded Sample.disk_a)).2).2).1
    (df_len Sample.df_3x2).
Proof.
  apply (started_service_predicts Sample.env Sample.disk_a
           [(Sample.env, Health); (Demo.env_same_second, Predict Demo.req_other)]
           Sample.env Sample.req_3x2 Sample.df_3x2).
  - reflexivity.
  - apply Sample_loads_3x2.
  - reflexivity.
Defined.

(** X20: when building the mock classifier failed at start-up on a freshly
    imported module, the predictor is never ready afterwards: every valid
    non-empty upload, after any other requests, is answered 500 "Model
    prediction failed". *)
Theorem unstarted_service_fails env0 e disk calls env req df :
  sklearn_fault env0 = Some e →
  upload_loads env req df →
  df_empty df = false →
  (predict env req (serve calls (initialize_app env0 (module_loaded disk)).2).2).1
    = Ok (jsonify_code (error_body "Model prediction failed") 500).
Proof.
  intros Hsk Hload Hne.
  set (s0 := (initialize_app env0 (module_loaded disk)).2).
  destruct (serve_same_model_state calls s0) as (_ & Hml & _).
  destruct (predict_loaded_run env req (serve calls s0).2 df Hload Hne)
    as (s1 & Hml1 & _ & ->).
  assert (Hready : predictor_ready s1 = false).
  { unfold predictor_ready. rewrite Hml1, Hml. unfold s0.
    rewrite initialize_app_ml_model, Hsk. reflexivity. }
  unfold try_except. rewrite predict_on_not_ready by done. reflexivity.
Qed.

Lemma unstarted_service_fails_witness :
  (predict Sample.env Sample.req_3x2
     (serve [(Sample.env, ModelInfo)]
        (initialize_app Demo.env_no_sklearn (module_loaded ∅)).2).2).1
    = Ok (jsonify_code (error_body "Model prediction failed") 500).
Proof.
  apply (unstarted_service_fails Demo.env_no_sklearn
           (Exn "ModuleNotFoundError" "No module named 'sklearn'") ∅
           [(Sample.env, ModelInfo)] Sample.env Sample.req_3x2 Sample.df_3x2).
  - reflexivity.
  - apply Sample_loads_3x2.
  - reflexivity.
Defined.

(** X21: the health route and the model-info route report the same model
    status: whenever both answer in the same state, the health answer is a
    200 whose [model_status] is the [status] of the model-info answer and
    whose [timestamp] is the clock in ISO format. *)
Theorem health_agrees_with_model_info env s r1 r2 :
  (health_check env s).1 = Ok r1 →
  (get_model_info s).1 = Ok r2 →
  status r1 = 200%nat ∧
  jfield "status" (body r1) = Some (JStr "healthy") ∧
  jfield "timestamp" (body r1) = Some (JStr (Datetime.isoformat (now env))) ∧
  jfield "model_status" (body r1) = jfield "status" (body r2) ∧
  jfield "model_status" (body r1) = model_metadata s !! "status".
Proof.
  unfold health_check, get_model_info, getitem. munfold.
  destruct (model_metadata s !! "model_type") as [mt|]; simpl; [|by intros _ [=]].
  destruct (model_metadata s !! "accuracy") as [acc|]; simpl; [|by intros _ [=]].
  destruct (model_metadata s !! "last_trained") as [lt|]; simpl; [|by intros _ [=]].
  destruct (model_metadata s !! "features") as [ft|]; simpl; [|by intros _ [=]].
  destruct (model_metadata s !! "status") as [st|]; simpl; [|by intros [=]].
  intros [= <-] [= <-]. done.
Qed.

Lemma health_agrees_with_model_info_witness :
  status (jsonify (JObj [("status", JStr "healthy");
                         ("timestamp", JStr "2025-03-09T14:05:00");
                         ("message", JStr "ML Workshop Backend is running");
                         ("model_status", JStr "Mock model loaded for testing")]))
    = 200%nat ∧
  model_metadata Sample.started !! "status"
    = Some (JStr "Mock model loaded for testing").
Proof.
  destruct (health_agrees_with_model_info Sample.env Sample.started
              (jsonify (JObj [("status", JStr "healthy");
                              ("timestamp", JStr "2025-03-09T14:05:00");
                              ("message", JStr "ML Workshop Backend is running");
                              ("model_status", JStr "Mock model loaded for testing")]))
              (jsonify (JObj [("success", JBool true);
                              ("model_type", JStr "Random Forest (Mock)");
                              ("accuracy", JFloat 0.85);
                              ("last_trained", JStr "2025-03-09T14:05:00");
                              ("features", JArr [JStr "Feature1"; JStr "Feature2";
                                                 JStr "Feature3"; JStr "Feature4"]);
                              ("status", JStr "Mock model loaded for testing")])))
    as (H1 & _ & _ & _ & H5).
  - vm_compute. reflexivity.
  - vm_compute. reflexivity.
  - split; [exact H1|]. rewrite <- H5. reflexivity.
Defined.
